(** * Toolbar plugin of the editable rich-text editor: model and properties

    The development embeds the toolbar plugin (the [Toolbar] component, its
    [ToolbarButton] and [ToolbarDropdown] items, the [ToolbarContext]
    listener registry, [ToolbarEditor] and [withToolbar]) and proves the
    properties of its selection-change wiring.

    Conventions of the embedding:
    - the externally-owned editor is an object with the two hooks the plugin
      touches ([onSelectionChange], [onToolbar]) and a remainder [core] whose
      type is a parameter: it is what item callbacks read and what commands
      change;
    - closures are defunctionalised: one constructor per lambda of the source
      that is stored somewhere, carrying the variables it captures;
    - a handler of the host is a function that returns: a closure, which
      ignores its receiver, or a function that acts on its receiver and does
      nothing without one; the editor calls its hook as a method;
    - a listener closure is a JavaScript object, compared by reference by
      [Array.prototype.indexOf]; it is modelled as a pair of its reference
      and its code;
    - React state cells ([useState]) are written at once by their setters;
      an effect's cleanup is the cell of the effect hook. *)

From stdpp Require Import base option list sorting strings gmap.

(** ** JavaScript array primitives used by the listener registry *)

Section Arrays.
Context {A : Type}.

(** [Array.prototype.indexOf]: the first index whose element is strictly
    equal to the argument, [-1] when there is none.  Strict equality is a
    parameter ([same]) because it is reference identity on closures. *)
Fixpoint indexOf_from (same : A → A → bool) (l : list A) (x : A) (k : Z) : Z :=
  match l with
  | [] => (-1)%Z
  | y :: l' => if same y x then k else indexOf_from same l' x (k + 1)%Z
  end.

Definition indexOf (same : A → A → bool) (l : list A) (x : A) : Z :=
  indexOf_from same l x 0%Z.

(** [Array.prototype.splice(start, deleteCount)] without inserted items:
    a negative [start] counts from the end, both arguments are clamped. *)
Definition splice (l : list A) (start deleteCount : Z) : list A :=
  let len := Z.of_nat (length l) in
  let actualStart :=
    if (start <? 0)%Z then Z.max (len + start) 0 else Z.min start len in
  let actualDeleteCount :=
    Z.min (Z.max deleteCount 0) (len - actualStart)%Z in
  take (Z.to_nat actualStart) l
    ++ drop (Z.to_nat (actualStart + actualDeleteCount)) l.

(** [Array.prototype.push] of one element. *)
Definition push (l : list A) (x : A) : list A := l ++ [x].
End Arrays.

(** ** Data model *)

Section Model.
Context {Core UIButton UIDropdown : Type}.

(** [interface ToolbarButton]: the three optional callbacks and the
    remaining props of the UI button ([type: 'button'] is the constructor
    of [ToolbarItem]). *)
Record ToolbarButton := {
  btn_onActive : option (Core → bool);
  btn_onDisabled : option (Core → bool);
  btn_onToggle : option (Core → Core);
  btn_props : UIButton
}.

(** [interface ToolbarDropdown]. *)
Record ToolbarDropdown := {
  dd_onActive : option (Core → string);
  dd_onDisabled : option (Core → bool);
  dd_onToggle : option (Core → string → Core);
  dd_props : UIDropdown
}.

(** [type ToolbarItem = ToolbarButton | ToolbarDropdown | 'separator']. *)
Inductive ToolbarItem :=
| separator
| button (b : ToolbarButton)
| dropdown (d : ToolbarDropdown).

(** [interface Toolbar { items?: ToolbarItem[] }]. *)
Record Toolbar := { tb_items : option (list ToolbarItem) }.

(** Values of [editor.onSelectionChange]: a closure of the host, which
    reaches the editor through the variables it captured and returns; a
    function of the host that acts on its receiver and does nothing without
    one ([function () { if (this) ... }]); or the arrow function the Toolbar
    effect installs, which captures the handler it found
    ([onSelectionChange]) and the [itemsProp] of its render. *)
Inductive SelectionHandler :=
| HostHandler (f : Core → Core)
| HostMethod (f : Core → Core)
| ToolbarHandler (onSelectionChange : SelectionHandler)
                 (itemsProp : option (list ToolbarItem)).

(** The editor object.  [onToolbar] is absent until [withToolbar] sets it. *)
Record Editable := {
  core : Core;
  onSelectionChange : SelectionHandler;
  onToolbar : option (list ToolbarItem → list ToolbarItem)
}.

(** The [onChange] closures of the two item components, with what they
    capture: the state cells of their instance and two of its props. *)
Inductive OnChange :=
| ButtonOnChange (cell : nat) (onActive onDisabled : option (Core → bool))
| DropdownOnChange (cell : nat) (onActive : option (Core → string))
                   (onDisabled : option (Core → bool)).

(** [type EditorChangeHandler]: a closure object, its reference and code.
    Every evaluation of the arrow function makes a new object, so a
    reference is never shared by two codes. *)
Record EditorChangeHandler := { ref : nat; code : OnChange }.

(** [===] on two closure objects. *)
Definition same (a b : EditorChangeHandler) : bool :=
  bool_decide (ref a = ref b).

(** [useState] cells of a [ToolbarButtonDefault] instance. *)
Record ButtonState := { active : bool; disabled : bool }.

(** [useState] cells of a [ToolbarDropdownDefault] instance. *)
Record DropdownState := { value : option string; dd_disabled : bool }.

(** Life of the one Toolbar instance: before its first render, between the
    layout effect and its cleanup (which holds the captured handler), and
    after the cleanup of the unmount. *)
Inductive ToolbarPhase :=
| NotMounted
| Mounted (captured : SelectionHandler)
| Unmounted.

(** The state the plugin runs on. *)
Record World := {
  editor : Editable;                       (* useEditableStatic() *)
  toolbar : ToolbarPhase;
  items : list ToolbarItem;                (* useState<ToolbarItem[]>([]) *)
  eventListeners : list EditorChangeHandler; (* useRef([]).current *)
  nextRef : nat;                           (* next closure reference *)
  buttonStates : list ButtonState;         (* per button instance *)
  buttonEffects : list (option EditorChangeHandler);
  dropdownStates : list DropdownState;     (* per dropdown instance *)
  dropdownEffects : list (option EditorChangeHandler);
  calls : list (nat * Core)                (* listener invocations, oldest first *)
}.

(** *** Field assignments *)

Definition set_editor (e : Editable) (w : World) : World :=
  {| editor := e; toolbar := toolbar w; items := items w;
     eventListeners := eventListeners w; nextRef := nextRef w;
     buttonStates := buttonStates w; buttonEffects := buttonEffects w;
     dropdownStates := dropdownStates w;
     dropdownEffects := dropdownEffects w; calls := calls w |}.

Definition set_toolbar (p : ToolbarPhase) (w : World) : World :=
  {| editor := editor w; toolbar := p; items := items w;
     eventListeners := eventListeners w; nextRef := nextRef w;
     buttonStates := buttonStates w; buttonEffects := buttonEffects w;
     dropdownStates := dropdownStates w;
     dropdownEffects := dropdownEffects w; calls := calls w |}.

(** [setItems] of the Toolbar. *)
Definition setItems (l : list ToolbarItem) (w : World) : World :=
  {| editor := editor w; toolbar := toolbar w; items := l;
     eventListeners := eventListeners w; nextRef := nextRef w;
     buttonStates := buttonStates w; buttonEffects := buttonEffects w;
     dropdownStates := dropdownStates w;
     dropdownEffects := dropdownEffects w; calls := calls w |}.

Definition set_eventListeners (l : list EditorChangeHandler) (w : World)
  : World :=
  {| editor := editor w; toolbar := toolbar w; items := items w;
     eventListeners := l; nextRef := nextRef w;
     buttonStates := buttonStates w; buttonEffects := buttonEffects w;
     dropdownStates := dropdownStates w;
     dropdownEffects := dropdownEffects w; calls := calls w |}.

Definition set_nextRef (n : nat) (w : World) : World :=
  {| editor := editor w; toolbar := toolbar w; items := items w;
     eventListeners := eventListeners w; nextRef := n;
     buttonStates := buttonStates w; buttonEffects := buttonEffects w;
     dropdownStates := dropdownStates w;
     dropdownEffects := dropdownEffects w; calls := calls w |}.

Definition set_buttonStates (l : list ButtonState) (w : World) : World :=
  {| editor := editor w; toolbar := toolbar w; items := items w;
     eventListeners := eventListeners w; nextRef := nextRef w;
     buttonStates := l; buttonEffects := buttonEffects w;
     dropdownStates := dropdownStates w;
     dropdownEffects := dropdownEffects w; calls := calls w |}.

Definition set_buttonEffects (l : list (option EditorChangeHandler))
    (w : World) : World :=
  {| editor := editor w; toolbar := toolbar w; items := items w;
     eventListeners := eventListeners w; nextRef := nextRef w;
     buttonStates := buttonStates w; buttonEffects := l;
     dropdownStates := dropdownStates w;
     dropdownEffects := dropdownEffects w; calls := calls w |}.

Definition set_dropdownStates (l : list DropdownState) (w : World) : World :=
  {| editor := editor w; toolbar := toolbar w; items := items w;
     eventListeners := eventListeners w; nextRef := nextRef w;
     buttonStates := buttonStates w; buttonEffects := buttonEffects w;
     dropdownStates := l;
     dropdownEffects := dropdownEffects w; calls := calls w |}.

Definition set_dropdownEffects (l : list (option EditorChangeHandler))
    (w : World) : World :=
  {| editor := editor w; toolbar := toolbar w; items := items w;
     eventListeners := eventListeners w; nextRef := nextRef w;
     buttonStates := buttonStates w; buttonEffects := buttonEffects w;
     dropdownStates := dropdownStates w;
     dropdownEffects := l; calls := calls w |}.

Definition set_calls (l : list (nat * Core)) (w : World) : World :=
  {| editor := editor w; toolbar := toolbar w; items := items w;
     eventListeners := eventListeners w; nextRef := nextRef w;
     buttonStates := buttonStates w; buttonEffects := buttonEffects w;
     dropdownStates := dropdownStates w;
     dropdownEffects := dropdownEffects w; calls := l |}.

(** A command of the editor: it changes the part callbacks read. *)
Definition set_core (c : Core) (w : World) : World :=
  set_editor {| core := c;
                onSelectionChange := onSelectionChange (editor w);
                onToolbar := onToolbar (editor w) |} w.

(** [editor.onSelectionChange = h]. *)
Definition set_onSelectionChange (h : SelectionHandler) (w : World) : World :=
  set_editor {| core := core (editor w);
                onSelectionChange := h;
                onToolbar := onToolbar (editor w) |} w.

(** *** The item components *)

(** [setActive], [setDisabled] of the button instance [cell]. *)
Definition setActive (cell : nat) (a : bool) (w : World) : World :=
  match buttonStates w !! cell with
  | Some st =>
      set_buttonStates
        (<[cell := {| active := a; disabled := disabled st |}]>
           (buttonStates w)) w
  | None => w
  end.

Definition setDisabled (cell : nat) (d : bool) (w : World) : World :=
  match buttonStates w !! cell with
  | Some st =>
      set_buttonStates
        (<[cell := {| active := active st; disabled := d |}]>
           (buttonStates w)) w
  | None => w
  end.

(** [setValue], [setDisabled] of the dropdown instance [cell]. *)
Definition setValue (cell : nat) (v : option string) (w : World) : World :=
  match dropdownStates w !! cell with
  | Some st =>
      set_dropdownStates
        (<[cell := {| value := v; dd_disabled := dd_disabled st |}]>
           (dropdownStates w)) w
  | None => w
  end.

Definition setDisabled_dropdown (cell : nat) (d : bool) (w : World) : World :=
  match dropdownStates w !! cell with
  | Some st =>
      set_dropdownStates
        (<[cell := {| value := value st; dd_disabled := d |}]>
           (dropdownStates w)) w
  | None => w
  end.

(** The body of [onChange], applied to the Toolbar's editor: the argument
    is a reference to the live editor object, so it is read in [w]. *)
Definition onChange (c : OnChange) (w : World) : World :=
  match c with
  | ButtonOnChange cell onActive onDisabled =>
      let active :=
        match onActive with
        | Some f => f (core (editor w))
        | None => false
        end in
      let disabled :=
        match onDisabled with
        | Some f => f (core (editor w))
        | None => false
        end in
      setDisabled cell disabled (setActive cell active w)
  | DropdownOnChange cell onActive onDisabled =>
      let value :=
        match onActive with
        | Some f => Some (f (core (editor w)))
        | None => None
        end in
      let disabled :=
        match onDisabled with
        | Some f => f (core (editor w))
        | None => false
        end in
      setDisabled_dropdown cell disabled (setValue cell value w)
  end.

(** Calling a listener: the call is recorded, then its body runs. *)
Definition callback (cb : EditorChangeHandler) (w : World) : World :=
  onChange (code cb)
    (set_calls (calls w ++ [(ref cb, core (editor w))]) w).

(** *** The listener registry of [ToolbarContext] *)

(** [addEventListener(callback)]: the push.  The function it returns is
    [unsubscribe callback]. *)
Definition addEventListener (cb : EditorChangeHandler) (w : World) : World :=
  set_eventListeners (push (eventListeners w) cb) w.

(** [() => { eventListeners.splice(eventListeners.indexOf(callback), 1) }]. *)
Definition unsubscribe (cb : EditorChangeHandler) (w : World) : World :=
  set_eventListeners
    (splice (eventListeners w) (indexOf same (eventListeners w) cb) 1) w.

(** [eventListeners.forEach(callback => callback(editor))]: the length is
    read once, then each index below it is visited on the live array and
    skipped when it is no longer there. *)
Fixpoint forEach_from (n k : nat) (w : World) : World :=
  match n with
  | O => w
  | S n' =>
      forEach_from n' (S k)
        match eventListeners w !! k with
        | Some cb => callback cb w
        | None => w
        end
  end.

Definition dispatch (w : World) : World :=
  forEach_from (length (eventListeners w)) 0 w.

(** *** The Toolbar component *)

(** How a call of [editor.onSelectionChange] ends: it returns, or it throws
    the [TypeError] of calling an absent [editor.onToolbar]; either way it
    leaves a state. *)
Inductive Outcome :=
| Returned (w : World)
| Threw (w : World).

Definition state_of (o : Outcome) : World :=
  match o with Returned w | Threw w => w end.

(** The receiver of a call: the editor in [editor.onSelectionChange()],
    none in the call [onSelectionChange()] of a function taken out of the
    editor (module code is strict, so [this] is then [undefined]). *)
Inductive Receiver :=
| ThisEditor
| ThisUndefined.

(** Calling a value of [editor.onSelectionChange].  The arrow function of
    the Toolbar calls the handler it captured without a receiver. *)
Fixpoint call_onSelectionChange (this : Receiver) (h : SelectionHandler)
    (w : World) : Outcome :=
  match h with
  | HostHandler f => Returned (set_core (f (core (editor w))) w)
  | HostMethod f =>
      match this with
      | ThisEditor => Returned (set_core (f (core (editor w))) w)
      | ThisUndefined => Returned w
      end
  | ToolbarHandler onSelectionChange itemsProp =>
      match call_onSelectionChange ThisUndefined onSelectionChange w with
      | Returned w1 =>
          let w2 := dispatch w1 in
          match onToolbar (editor w2) with
          | Some hook => Returned (setItems (hook (default [] itemsProp)) w2)
          | None => Threw w2
          end
      | Threw w1 => Threw w1
      end
  end.

(** A selection-change notification: the editor calls its hook, as a method
    of itself. *)
Definition notify (w : World) : Outcome :=
  call_onSelectionChange ThisEditor (onSelectionChange (editor w)) w.

(** The body of the layout effect; its cleanup is kept in [toolbar]. *)
Definition Toolbar_effect (itemsProp : option (list ToolbarItem))
    (w : World) : World :=
  let onSelectionChange := onSelectionChange (editor w) in
  let w1 :=
    set_onSelectionChange (ToolbarHandler onSelectionChange itemsProp) w in
  set_toolbar (Mounted onSelectionChange) (dispatch w1).

(** [() => { editor.onSelectionChange = onSelectionChange }]. *)
Definition Toolbar_cleanup (w : World) : World :=
  match toolbar w with
  | Mounted onSelectionChange => set_onSelectionChange onSelectionChange w
  | _ => w
  end.

(** First render ([useState([])], [useRef([])]) and first effect. *)
Definition Toolbar_mount (itemsProp : option (list ToolbarItem))
    (w : World) : World :=
  Toolbar_effect itemsProp (set_eventListeners [] (setItems [] w)).

(** A render with a changed [itemsProp]: cleanup, then the effect again. *)
Definition Toolbar_update (itemsProp : option (list ToolbarItem))
    (w : World) : World :=
  Toolbar_effect itemsProp (Toolbar_cleanup w).

Definition Toolbar_unmount (w : World) : World :=
  set_toolbar Unmounted (Toolbar_cleanup w).

(** What [renderItem] returns. *)
Inductive Element :=
| ToolbarSeparator_el (key : nat)
| ToolbarButton_el (key : nat) (props : ToolbarButton)
| ToolbarDropdown_el (key : nat) (props : ToolbarDropdown).

Definition renderItem (item : ToolbarItem) (key : nat) : Element :=
  match item with
  | separator => ToolbarSeparator_el key
  | button b => ToolbarButton_el key b
  | dropdown d => ToolbarDropdown_el key d
  end.

(** [(items ?? []).map(renderItem)]: the children of [UIToolbar]. *)
Definition Toolbar_children (w : World) : list Element :=
  imap (λ key item, renderItem item key) (items w).

(** *** Life of the item components *)

Definition ToolbarButton_effect (cell : nat)
    (onActive onDisabled : option (Core → bool)) (w : World) : World :=
  let cb := {| ref := nextRef w;
               code := ButtonOnChange cell onActive onDisabled |} in
  let w1 := addEventListener cb (set_nextRef (S (nextRef w)) w) in
  set_buttonEffects (<[cell := Some cb]> (buttonEffects w1)) w1.

(** [() => unsubscribe()]. *)
Definition ToolbarButton_cleanup (cell : nat) (w : World) : World :=
  match buttonEffects w !! cell with
  | Some (Some cb) =>
      let w1 := unsubscribe cb w in
      set_buttonEffects (<[cell := None]> (buttonEffects w1)) w1
  | _ => w
  end.

Definition ToolbarButton_mount (b : ToolbarButton) (w : World) : World :=
  let cell := length (buttonStates w) in
  let w1 :=
    set_buttonStates
      (buttonStates w ++ [{| active := false; disabled := false |}]) w in
  let w2 := set_buttonEffects (buttonEffects w1 ++ [None]) w1 in
  ToolbarButton_effect cell (btn_onActive b) (btn_onDisabled b) w2.

Definition ToolbarButton_update (cell : nat) (b : ToolbarButton)
    (w : World) : World :=
  ToolbarButton_effect cell (btn_onActive b) (btn_onDisabled b)
    (ToolbarButton_cleanup cell w).

(** [handleToogle] of the button. *)
Definition ToolbarButton_handleToogle (onToggle : option (Core → Core))
    (w : World) : World :=
  match onToggle with
  | Some f => set_core (f (core (editor w))) w
  | None => w
  end.

Definition ToolbarDropdown_effect (cell : nat)
    (onActive : option (Core → string))
    (onDisabled : option (Core → bool)) (w : World) : World :=
  let cb := {| ref := nextRef w;
               code := DropdownOnChange cell onActive onDisabled |} in
  let w1 := addEventListener cb (set_nextRef (S (nextRef w)) w) in
  set_dropdownEffects (<[cell := Some cb]> (dropdownEffects w1)) w1.

Definition ToolbarDropdown_cleanup (cell : nat) (w : World) : World :=
  match dropdownEffects w !! cell with
  | Some (Some cb) =>
      let w1 := unsubscribe cb w in
      set_dropdownEffects (<[cell := None]> (dropdownEffects w1)) w1
  | _ => w
  end.

Definition ToolbarDropdown_mount (d : ToolbarDropdown) (w : World) : World :=
  let cell := length (dropdownStates w) in
  let w1 :=
    set_dropdownStates
      (dropdownStates w ++ [{| value := None; dd_disabled := false |}]) w in
  let w2 := set_dropdownEffects (dropdownEffects w1 ++ [None]) w1 in
  ToolbarDropdown_effect cell (dd_onActive d) (dd_onDisabled d) w2.

Definition ToolbarDropdown_update (cell : nat) (d : ToolbarDropdown)
    (w : World) : World :=
  ToolbarDropdown_effect cell (dd_onActive d) (dd_onDisabled d)
    (ToolbarDropdown_cleanup cell w).

(** [handleToogle] of the dropdown. *)
Definition ToolbarDropdown_handleToogle
    (onToggle : option (Core → string → Core)) (value : string)
    (w : World) : World :=
  match onToggle with
  | Some f => set_core (f (core (editor w)) value) w
  | None => w
  end.

(** *** Runs of the component tree

    What React and the editor can do to the state: the commits of the
    Toolbar and of its items, a selection change, a toggle, a command of
    the host.  An event that cannot happen in the current state (a second
    mount, an item outside a live Toolbar, an instance that is not
    mounted) has no successor.  A notification that throws leaves the state
    it reached: the exception goes to the caller of the hook. *)
Inductive Event :=
| MountToolbar (itemsProp : option (list ToolbarItem))
| UpdateToolbar (itemsProp : option (list ToolbarItem))
| UnmountToolbar
| MountButton (b : ToolbarButton)
| UpdateButton (cell : nat) (b : ToolbarButton)
| UnmountButton (cell : nat)
| ToggleButton (b : ToolbarButton)
| MountDropdown (d : ToolbarDropdown)
| UpdateDropdown (cell : nat) (d : ToolbarDropdown)
| UnmountDropdown (cell : nat)
| ToggleDropdown (d : ToolbarDropdown) (value : string)
| SelectionChange
| HostCommand (f : Core → Core).

Definition is_live (w : World) : bool :=
  match toolbar w with Mounted _ => true | _ => false end.

Definition subscribed (l : list (option EditorChangeHandler)) (cell : nat)
  : bool :=
  match l !! cell with Some (Some _) => true | _ => false end.

Definition exec (ev : Event) (w : World) : option World :=
  match ev with
  | MountToolbar itemsProp =>
      match toolbar w with
      | NotMounted => Some (Toolbar_mount itemsProp w)
      | _ => None
      end
  | UpdateToolbar itemsProp =>
      if is_live w then Some (Toolbar_update itemsProp w) else None
  | UnmountToolbar =>
      if is_live w then Some (Toolbar_unmount w) else None
  | MountButton b =>
      if is_live w then Some (ToolbarButton_mount b w) else None
  | UpdateButton cell b =>
      if subscribed (buttonEffects w) cell
      then Some (ToolbarButton_update cell b w) else None
  | UnmountButton cell =>
      if subscribed (buttonEffects w) cell
      then Some (ToolbarButton_cleanup cell w) else None
  | ToggleButton b => Some (ToolbarButton_handleToogle (btn_onToggle b) w)
  | MountDropdown d =>
      if is_live w then Some (ToolbarDropdown_mount d w) else None
  | UpdateDropdown cell d =>
      if subscribed (dropdownEffects w) cell
      then Some (ToolbarDropdown_update cell d w) else None
  | UnmountDropdown cell =>
      if subscribed (dropdownEffects w) cell
      then Some (ToolbarDropdown_cleanup cell w) else None
  | ToggleDropdown d value =>
      Some (ToolbarDropdown_handleToogle (dd_onToggle d) value w)
  | SelectionChange => Some (state_of (notify w))
  | HostCommand f => Some (set_core (f (core (editor w))) w)
  end.

Fixpoint run (evs : list Event) (w : World) : option World :=
  match evs with
  | [] => Some w
  | ev :: evs' =>
      match exec ev w with
      | Some w' => run evs' w'
      | None => None
      end
  end.

(** The commits of the Toolbar itself, as opposed to those of its items
    and to what happens in the editor. *)
Definition is_Toolbar_event (ev : Event) : bool :=
  match ev with
  | MountToolbar _ | UpdateToolbar _ | UnmountToolbar => true
  | _ => false
  end.

(** The state before the Toolbar of [e] renders for the first time. *)
Definition initial (e : Editable) : World :=
  {| editor := e; toolbar := NotMounted; items := [];
     eventListeners := []; nextRef := 0;
     buttonStates := []; buttonEffects := [];
     dropdownStates := []; dropdownEffects := []; calls := [] |}.

Definition reachable (w : World) : Prop :=
  ∃ e evs, run evs (initial e) = Some w.

(** *** [withToolbar] and [ToolbarEditor]

    Editors are objects: the store maps their references to their fields,
    and the [WeakMap] is keyed by reference. *)
Record Store := {
  heap : gmap nat Editable;
  TOOLBAR_OPTIONS : gmap nat Toolbar
}.

(** [new WeakMap()] over any objects. *)
Definition fresh_store (h : gmap nat Editable) : Store :=
  {| heap := h; TOOLBAR_OPTIONS := ∅ |}.

(** [withToolbar(editor, options = {})]; [None] is an omitted argument. *)
Definition withToolbar (editor : nat) (options : option Toolbar)
    (s : Store) : nat * Store :=
  let options := default {| tb_items := None |} options in
  let newEditor := editor in
  let s1 := {| heap := heap s;
               TOOLBAR_OPTIONS := <[editor := options]> (TOOLBAR_OPTIONS s) |} in
  let s2 :=
    {| heap :=
         alter (λ e, {| core := core e;
                        onSelectionChange := onSelectionChange e;
                        onToolbar := Some (λ items, items) |})
               newEditor (heap s1);
       TOOLBAR_OPTIONS := TOOLBAR_OPTIONS s1 |} in
  (newEditor, s2).

(** [ToolbarEditor.isToolbarEditor]: [!!editor.onToolbar]. *)
Definition ToolbarEditor_isToolbarEditor (editor : nat) (s : Store) : bool :=
  match heap s !! editor with
  | Some e => match onToolbar e with Some _ => true | None => false end
  | None => false
  end.

(** [ToolbarEditor.getOptions]: [TOOLBAR_OPTIONS.get(editor) ?? {}]. *)
Definition ToolbarEditor_getOptions (editor : nat) (s : Store) : Toolbar :=
  match TOOLBAR_OPTIONS s !! editor with
  | Some options => options
  | None => {| tb_items := None |}
  end.

(** A program that only calls [withToolbar]. *)
Fixpoint withToolbar_all (l : list (nat * option Toolbar)) (s : Store)
  : Store :=
  match l with
  | [] => s
  | (editor, options) :: l' => withToolbar_all l' (withToolbar editor options s).2
  end.


(** *** Predicates used to state the properties *)

(** All listeners of a list called in turn, from the first to the last. *)
Definition call_all (l : list EditorChangeHandler) (w : World) : World :=
  foldl (λ w cb, callback cb w) w l.

(** The entries a run of [call_all l] adds to [calls] on an editor whose
    [core] is [c]. *)
Definition invocations (l : list EditorChangeHandler) (c : Core)
  : list (nat * Core) :=
  (λ cb, (ref cb, c)) <$> l.

(** What the wiring keeps from one state to another: the two hooks of the
    editor, the registry, the effect cells, the number of instances. *)
Definition wiring (w w' : World) : Prop :=
  onSelectionChange (editor w') = onSelectionChange (editor w)
  ∧ onToolbar (editor w') = onToolbar (editor w)
  ∧ toolbar w' = toolbar w
  ∧ eventListeners w' = eventListeners w
  ∧ nextRef w' = nextRef w
  ∧ buttonEffects w' = buttonEffects w
  ∧ dropdownEffects w' = dropdownEffects w
  ∧ length (buttonStates w') = length (buttonStates w)
  ∧ length (dropdownStates w') = length (dropdownStates w).

(** The instance whose effect cell holds the listener. *)
Definition owned (w : World) (cb : EditorChangeHandler) : Prop :=
  match code cb with
  | ButtonOnChange cell _ _ => buttonEffects w !! cell = Some (Some cb)
  | DropdownOnChange cell _ _ => dropdownEffects w !! cell = Some (Some cb)
  end.

(** The handler the editor [e] had before the Toolbar mounted is the one
    every effect captures, and the one installed outside the live phase. *)
Definition hooked (e : Editable) (w : World) : Prop :=
  onToolbar (editor w) = onToolbar e
  ∧ match toolbar w with
    | Mounted h =>
        h = onSelectionChange e
        ∧ ∃ itemsProp,
            onSelectionChange (editor w) = ToolbarHandler h itemsProp
    | _ => onSelectionChange (editor w) = onSelectionChange e
    end.

(** The registry holds, in the order of their creation, listeners that
    are each the current subscription of a mounted instance. *)
Definition registered (w : World) : Prop :=
  StronglySorted lt (ref <$> eventListeners w)
  ∧ Forall (λ cb, ref cb < nextRef w) (eventListeners w)
  ∧ Forall (owned w) (eventListeners w)
  ∧ length (buttonStates w) = length (buttonEffects w)
  ∧ length (dropdownStates w) = length (dropdownEffects w).

(** The invariant of the runs that start from the editor [e]. *)
Definition Inv (e : Editable) (w : World) : Prop :=
  registered w ∧ hooked e w.

(** The effect cells and the registry agree: the listener an effect cell
    holds is in the registry and writes to the state cells of that very
    instance; before the Toolbar mounts there is no item instance. *)
Definition subscriptions_kept (w : World) : Prop :=
  (∀ cell cb,
     buttonEffects w !! cell = Some (Some cb) →
     cb ∈ eventListeners w ∧ ∃ oa od, code cb = ButtonOnChange cell oa od)
  ∧ (∀ cell cb,
       dropdownEffects w !! cell = Some (Some cb) →
       cb ∈ eventListeners w ∧ ∃ oa od, code cb = DropdownOnChange cell oa od)
  ∧ (toolbar w = NotMounted → buttonEffects w = [] ∧ dropdownEffects w = []).

(** The commit that gives the button instance [cell] the descriptor [b]:
    its mount, which takes the next cells, or a render of the instance with
    other callbacks. *)
Definition renders_button (b : ToolbarButton) (cell : nat) (w w' : World)
  : Prop :=
  (exec (MountButton b) w = Some w' ∧ cell = length (buttonStates w))
  ∨ exec (UpdateButton cell b) w = Some w'.

Definition renders_dropdown (d : ToolbarDropdown) (cell : nat) (w w' : World)
  : Prop :=
  (exec (MountDropdown d) w = Some w' ∧ cell = length (dropdownStates w))
  ∨ exec (UpdateDropdown cell d) w = Some w'.

(** The events that render the button instance [cell] again or unmount
    it. *)
Definition rerenders_button (cell : nat) (ev : Event) : bool :=
  match ev with
  | UpdateButton c _ | UnmountButton c => bool_decide (c = cell)
  | _ => false
  end.

Definition rerenders_dropdown (cell : nat) (ev : Event) : bool :=
  match ev with
  | UpdateDropdown c _ | UnmountDropdown c => bool_decide (c = cell)
  | _ => false
  end.

End Model.

Arguments ToolbarButton : clear implicits.
Arguments ToolbarDropdown : clear implicits.
Arguments ToolbarItem : clear implicits.
Arguments Toolbar : clear implicits.
Arguments SelectionHandler : clear implicits.
Arguments Editable : clear implicits.
Arguments OnChange : clear implicits.
Arguments EditorChangeHandler : clear implicits.
Arguments World : clear implicits.
Arguments Element : clear implicits.
Arguments Event : clear implicits.
Arguments Store : clear implicits.
Arguments Outcome : clear implicits.

(** ** Sample configurations

    A host whose [core] is a cursor offset, buttons titled by a string and
    dropdowns given by their list of choices. *)

Definition bold : ToolbarButton nat string :=
  {| btn_onActive := Some Nat.even;
     btn_onDisabled := Some (λ c, Nat.ltb 5 c);
     btn_onToggle := Some S;
     btn_props := "bold"%string |}.

Definition plain : ToolbarButton nat string :=
  {| btn_onActive := None; btn_onDisabled := None; btn_onToggle := None;
     btn_props := "plain"%string |}.

Definition heading : ToolbarDropdown nat (list string) :=
  {| dd_onActive := Some (λ c, if Nat.even c then "h1" else "h2")%string;
     dd_onDisabled := None;
     dd_onToggle := Some (λ c _, c + 2);
     dd_props := ["h1"; "h2"]%string |}.

Definition font : ToolbarDropdown nat (list string) :=
  {| dd_onActive := None; dd_onDisabled := None; dd_onToggle := None;
     dd_props := ["serif"]%string |}.

Definition sample_editor : Editable nat string (list string) :=
  {| core := 0; onSelectionChange := HostHandler S;
     onToolbar := Some (λ items, items) |}.

Definition sample_items : list (ToolbarItem nat string (list string)) :=
  [button bold; separator; dropdown heading; button plain; dropdown font].

Definition sample_events : list (Event nat string (list string)) :=
  [MountToolbar (Some sample_items); SelectionChange;
   MountButton bold; MountDropdown heading; MountButton plain;
   MountDropdown font].

Definition sample_world : World nat string (list string) :=
  default (initial sample_editor) (run sample_events (initial sample_editor)).

(** An editor that [withToolbar] has not extended, and a store of two. *)
Definition bare_editor : Editable nat string (list string) :=
  {| core := 7; onSelectionChange := HostHandler S; onToolbar := None |}.

Definition sample_store : Store nat string (list string) :=
  fresh_store (<[1 := bare_editor]> (<[2 := bare_editor]> ∅)).

Definition sample_options : Toolbar nat string (list string) :=
  {| tb_items := Some sample_items |}.

(** The listeners of two mounted buttons, and a Toolbar that holds them. *)
Definition bold_onChange : EditorChangeHandler nat :=
  {| ref := 0;
     code := ButtonOnChange 0 (btn_onActive bold) (btn_onDisabled bold) |}.

Definition plain_onChange : EditorChangeHandler nat :=
  {| ref := 1; code := ButtonOnChange 1 None None |}.

Definition two_buttons : World nat string (list string) :=
  default (initial sample_editor)
    (run [MountToolbar None; MountButton bold; MountButton plain]
       (initial sample_editor)).

(** The sample Toolbar after one more notification, and a run that ends
    with its unmount. *)
Definition sample_notified : World nat string (list string) :=
  state_of (notify sample_world).

Definition unmount_events : list (Event nat string (list string)) :=
  [MountToolbar None; MountButton bold; SelectionChange;
   UpdateToolbar (Some sample_items); ToggleButton bold; UnmountToolbar;
   UnmountButton 0].

Definition unmounted_world : World nat string (list string) :=
  default (initial sample_editor) (run unmount_events (initial sample_editor)).

(** An editor on which [withToolbar] was never called, under a Toolbar with
    one button. *)
Definition bare_events : list (Event nat string (list string)) :=
  [MountToolbar (Some sample_items); MountButton bold; SelectionChange].

Definition bare_world : World nat string (list string) :=
  default (initial bare_editor) (run bare_events (initial bare_editor)).

(** A listener that no instance of the sample Toolbar holds. *)
Definition stray_onChange : EditorChangeHandler nat :=
  {| ref := 9; code := ButtonOnChange 0 None None |}.

(** An editor whose handler acts on its receiver: called as a method it
    moves the cursor, called without a receiver it does nothing. *)
Definition method_editor : Editable nat string (list string) :=
  {| core := 0; onSelectionChange := HostMethod S;
     onToolbar := Some (λ items, items) |}.



(** Two mounted buttons after the first is rendered with the descriptor
    [plain]; a dropdown mounted with [heading], notified once, and then
    rendered with [font]. *)
Definition bold_made_plain : World nat string (list string) :=
  ToolbarButton_update 0 plain two_buttons.

Definition heading_events : list (Event nat string (list string)) :=
  [MountToolbar None; MountDropdown heading; SelectionChange].

Definition heading_mounted : World nat string (list string) :=
  default (initial sample_editor) (run heading_events (initial sample_editor)).

Definition heading_made_font : World nat string (list string) :=
  ToolbarDropdown_update 0 font heading_mounted.

(** Case analysis on the first lookup of the goal, for the state setters. *)
Ltac setter :=
  match goal with |- context [?l !! ?i] => destruct (l !! i) end;
  simpl; rewrite ?length_insert; done.

(** ** Facts about the array primitives *)

Section ArrayFacts.
Context {A : Type} (same : A → A → bool).

Lemma indexOf_from_miss (l : list A) (x : A) (k : Z) :
  Forall (λ z, same z x = false) l → indexOf_from same l x k = (-1)%Z.
Proof.
  intros Hl. revert k.
  induction Hl as [|z l Hz _ IH]; intros k; simpl; [done|].
  rewrite Hz. apply IH.
Qed.

Lemma indexOf_from_hit (l1 l2 : list A) (y x : A) (k : Z) :
  Forall (λ z, same z x = false) l1 → same y x = true →
  indexOf_from same (l1 ++ y :: l2) x k = (k + Z.of_nat (length l1))%Z.
Proof.
  intros Hl Hy. revert k.
  induction Hl as [|z l Hz _ IH]; intros k; simpl.
  - rewrite Hy. lia.
  - rewrite Hz, IH. lia.
Qed.

(** The array either has a first match, or none at all. *)
Lemma first_match (l : list A) (x : A) :
  (∃ l1 y l2, l = l1 ++ y :: l2 ∧ Forall (λ z, same z x = false) l1
              ∧ same y x = true)
  ∨ Forall (λ z, same z x = false) l.
Proof.
  induction l as [|z l IH]; [right; constructor|].
  destruct (same z x) eqn:Hz.
  - left. exists [], z, l. by repeat split.
  - destruct IH as [(l1 & y & l2 & -> & Hl1 & Hy)|Hl].
    + left. exists (z :: l1), y, l2. repeat split; [|done].
      by constructor.
    + right. by constructor.
Qed.

Lemma splice_one_at (l1 l2 : list A) (y : A) :
  splice (l1 ++ y :: l2) (Z.of_nat (length l1)) 1 = l1 ++ l2.
Proof.
  unfold splice. rewrite length_app. simpl.
  destruct (Z.ltb_spec (Z.of_nat (length l1)) 0) as [?|_]; [lia|].
  rewrite Z.min_l by lia.
  replace (Z.min (Z.max 1 0) _) with 1%Z by lia.
  rewrite Nat2Z.id.
  replace (Z.to_nat (Z.of_nat (length l1) + 1)) with (S (length l1)) by lia.
  rewrite take_app_length.
  change (l1 ++ y :: l2) with (l1 ++ [y] ++ l2).
  rewrite app_assoc.
  replace (S (length l1)) with (length (l1 ++ [y]))
    by (rewrite length_app; simpl; lia).
  by rewrite drop_app_length.
Qed.

(** A start of [-1] removes the last element. *)
Lemma splice_one_last (l : list A) (y : A) :
  splice (l ++ [y]) (-1) 1 = l.
Proof.
  unfold splice. rewrite length_app. simpl.
  replace (Z.max _ 0) with (Z.of_nat (length l)) by lia.
  replace (Z.min (Z.max 1 0) _) with 1%Z by lia.
  rewrite Nat2Z.id.
  replace (Z.to_nat (Z.of_nat (length l) + 1)) with (length (l ++ [y]))
    by (rewrite length_app; simpl; lia).
  rewrite take_app_length, drop_all. apply app_nil_r.
Qed.

Lemma splice_one_empty : splice (@nil A) (-1) 1 = [].
Proof. reflexivity. Qed.

(** What [l.splice(l.indexOf(x), 1)] leaves: the array without the first
    match, or without its last element when nothing matches. *)
Lemma splice_indexOf (l : list A) (x : A) :
  (∃ l1 y l2, l = l1 ++ y :: l2 ∧ Forall (λ z, same z x = false) l1
              ∧ same y x = true
              ∧ splice l (indexOf same l x) 1 = l1 ++ l2)
  ∨ (Forall (λ z, same z x = false) l
     ∧ ((l = [] ∧ splice l (indexOf same l x) 1 = [])
        ∨ ∃ l1 y, l = l1 ++ [y] ∧ splice l (indexOf same l x) 1 = l1)).
Proof.
  destruct (first_match l x) as [(l1 & y & l2 & -> & Hl1 & Hy)|Hl].
  - left. exists l1, y, l2. repeat split; try done.
    unfold indexOf. rewrite indexOf_from_hit by done.
    rewrite Z.add_0_l. apply splice_one_at.
  - right. split; [done|].
    unfold indexOf. rewrite indexOf_from_miss by done.
    destruct l as [|y l1 _] using rev_ind; [by left|].
    right. exists l1, y. split; [done|]. apply splice_one_last.
Qed.
End ArrayFacts.

(** ** Frame properties of the listeners *)

Section Frames.
Context {Core UIButton UIDropdown : Type}.
Local Abbreviation world := (World Core UIButton UIDropdown).
Local Abbreviation listener := (EditorChangeHandler Core).

Lemma wiring_refl (w : world) : wiring w w.
Proof. by repeat split. Qed.

Lemma wiring_trans (w1 w2 w3 : world) :
  wiring w1 w2 → wiring w2 w3 → wiring w1 w3.
Proof.
  unfold wiring. intros (?&?&?&?&?&?&?&?&?) (?&?&?&?&?&?&?&?&?).
  repeat split; congruence.
Qed.

Lemma setActive_wiring cell a (w : world) : wiring w (setActive cell a w).
Proof. unfold wiring, setActive. setter. Qed.

Lemma setDisabled_wiring cell a (w : world) : wiring w (setDisabled cell a w).
Proof. unfold wiring, setDisabled. setter. Qed.

Lemma setValue_wiring cell a (w : world) : wiring w (setValue cell a w).
Proof. unfold wiring, setValue. setter. Qed.

Lemma setDisabled_dropdown_wiring cell a (w : world) :
  wiring w (setDisabled_dropdown cell a w).
Proof.
  unfold wiring, setDisabled_dropdown. setter.
Qed.

(** A listener writes state cells and nothing else. *)
Lemma onChange_keeps c (w : world) :
  editor (onChange c w) = editor w ∧ items (onChange c w) = items w
  ∧ calls (onChange c w) = calls w.
Proof.
  destruct c; simpl.
  - unfold setDisabled, setActive.
    destruct (buttonStates w !! cell) eqn:E; simpl;
      match goal with |- context [?l !! ?i] => destruct (l !! i) end; done.
  - unfold setDisabled_dropdown, setValue.
    destruct (dropdownStates w !! cell) eqn:E; simpl;
      match goal with |- context [?l !! ?i] => destruct (l !! i) end; done.
Qed.

Lemma onChange_wiring c (w : world) : wiring w (onChange c w).
Proof.
  destruct c; simpl.
  - eapply wiring_trans; [apply setActive_wiring|apply setDisabled_wiring].
  - eapply wiring_trans;
      [apply setValue_wiring|apply setDisabled_dropdown_wiring].
Qed.

Lemma callback_wiring (cb : listener) (w : world) : wiring w (callback cb w).
Proof.
  unfold callback. eapply wiring_trans; [|apply onChange_wiring].
  by repeat split.
Qed.

Lemma callback_editor (cb : listener) (w : world) :
  editor (callback cb w) = editor w.
Proof. unfold callback. by rewrite (proj1 (onChange_keeps _ _)). Qed.

Lemma callback_items (cb : listener) (w : world) :
  items (callback cb w) = items w.
Proof.
  unfold callback. by rewrite (proj1 (proj2 (onChange_keeps _ _))).
Qed.

Lemma callback_calls (cb : listener) (w : world) :
  calls (callback cb w) = calls w ++ [(ref cb, core (editor w))].
Proof.
  unfold callback. by rewrite (proj2 (proj2 (onChange_keeps _ _))).
Qed.
End Frames.

(** ** What a dispatch does *)

Section Dispatch.
Context {Core UIButton UIDropdown : Type}.
Local Abbreviation world := (World Core UIButton UIDropdown).
Local Abbreviation listener := (EditorChangeHandler Core).

Lemma setActive_dropdowns cell a (w : world) :
  dropdownStates (setActive cell a w) = dropdownStates w.
Proof. unfold setActive. by destruct (buttonStates w !! cell). Qed.

Lemma setDisabled_dropdowns cell a (w : world) :
  dropdownStates (setDisabled cell a w) = dropdownStates w.
Proof. unfold setDisabled. by destruct (buttonStates w !! cell). Qed.

Lemma setValue_buttons cell a (w : world) :
  buttonStates (setValue cell a w) = buttonStates w.
Proof. unfold setValue. by destruct (dropdownStates w !! cell). Qed.

Lemma setDisabled_dropdown_buttons cell a (w : world) :
  buttonStates (setDisabled_dropdown cell a w) = buttonStates w.
Proof.
  unfold setDisabled_dropdown. by destruct (dropdownStates w !! cell).
Qed.

(** The values [onChange] computes from its two optional callbacks. *)
Lemma callback_button (cb : listener) (w : world) cell oa od :
  code cb = ButtonOnChange cell oa od →
  cell < length (buttonStates w) →
  buttonStates (callback cb w) !! cell
  = Some {| active := match oa with
                      | Some f => f (core (editor w))
                      | None => false
                      end;
            disabled := match od with
                        | Some f => f (core (editor w))
                        | None => false
                        end |}.
Proof.
  intros Hc Hlt. unfold callback. rewrite Hc. simpl.
  unfold setDisabled, setActive. simpl.
  destruct (lookup_lt_is_Some_2 _ _ Hlt) as [st ->]. simpl.
  rewrite list_lookup_insert_eq by done. simpl.
  rewrite list_insert_insert_eq.
  by rewrite list_lookup_insert_eq.
Qed.

Lemma callback_button_other (cb : listener) (w : world) cell :
  (∀ oa od, code cb ≠ ButtonOnChange cell oa od) →
  buttonStates (callback cb w) !! cell = buttonStates w !! cell.
Proof.
  intros Hc. unfold callback. destruct (code cb) as [c oa od|c oa od]; simpl.
  - assert (c ≠ cell) by (intros ->; by eapply Hc).
    unfold setDisabled, setActive. simpl.
    destruct (buttonStates w !! c) eqn:E; simpl.
    2: { rewrite E. done. }
    rewrite list_lookup_insert_eq by (eapply lookup_lt_Some; done).
    simpl. by rewrite !list_lookup_insert_ne.
  - by rewrite setDisabled_dropdown_buttons, setValue_buttons.
Qed.

Lemma callback_dropdown (cb : listener) (w : world) cell oa od :
  code cb = DropdownOnChange cell oa od →
  cell < length (dropdownStates w) →
  dropdownStates (callback cb w) !! cell
  = Some {| value := match oa with
                     | Some f => Some (f (core (editor w)))
                     | None => None
                     end;
            dd_disabled := match od with
                           | Some f => f (core (editor w))
                           | None => false
                           end |}.
Proof.
  intros Hc Hlt. unfold callback. rewrite Hc. simpl.
  unfold setDisabled_dropdown, setValue. simpl.
  destruct (lookup_lt_is_Some_2 _ _ Hlt) as [st ->]. simpl.
  rewrite list_lookup_insert_eq by done. simpl.
  rewrite list_insert_insert_eq.
  by rewrite list_lookup_insert_eq.
Qed.

Lemma callback_dropdown_other (cb : listener) (w : world) cell :
  (∀ oa od, code cb ≠ DropdownOnChange cell oa od) →
  dropdownStates (callback cb w) !! cell = dropdownStates w !! cell.
Proof.
  intros Hc. unfold callback. destruct (code cb) as [c oa od|c oa od]; simpl.
  - by rewrite setDisabled_dropdowns, setActive_dropdowns.
  - assert (c ≠ cell) by (intros ->; by eapply Hc).
    unfold setDisabled_dropdown, setValue. simpl.
    destruct (dropdownStates w !! c) eqn:E; simpl.
    2: { rewrite E. done. }
    rewrite list_lookup_insert_eq by (eapply lookup_lt_Some; done).
    simpl. by rewrite !list_lookup_insert_ne.
Qed.

Lemma call_all_cons (cb : listener) l (w : world) :
  call_all (cb :: l) w = call_all l (callback cb w).
Proof. reflexivity. Qed.

Lemma call_all_app (l1 l2 : list listener) (w : world) :
  call_all (l1 ++ l2) w = call_all l2 (call_all l1 w).
Proof. apply foldl_app. Qed.

Lemma call_all_wiring (l : list listener) (w : world) :
  wiring w (call_all l w).
Proof.
  revert w. induction l as [|cb l IH]; intros w; [apply wiring_refl|].
  rewrite call_all_cons.
  eapply wiring_trans; [apply callback_wiring|apply IH].
Qed.

Lemma call_all_editor (l : list listener) (w : world) :
  editor (call_all l w) = editor w.
Proof.
  revert w. induction l as [|cb l IH]; intros w; [done|].
  by rewrite call_all_cons, IH, callback_editor.
Qed.

Lemma call_all_items (l : list listener) (w : world) :
  items (call_all l w) = items w.
Proof.
  revert w. induction l as [|cb l IH]; intros w; [done|].
  by rewrite call_all_cons, IH, callback_items.
Qed.

(** Every listener of the list is called once, in the order of the list,
    on the same editor. *)
Lemma call_all_calls (l : list listener) (w : world) :
  calls (call_all l w) = calls w ++ invocations l (core (editor w)).
Proof.
  revert w. induction l as [|cb l IH]; intros w.
  - simpl. by rewrite app_nil_r.
  - rewrite call_all_cons, IH, callback_calls, callback_editor.
    by rewrite <- app_assoc.
Qed.

Lemma call_all_button_other (l : list listener) (w : world) cell :
  Forall (λ cb, ∀ oa od, code cb ≠ ButtonOnChange cell oa od) l →
  buttonStates (call_all l w) !! cell = buttonStates w !! cell.
Proof.
  intros Hl. revert w. induction Hl as [|cb l Hcb _ IH]; intros w; [done|].
  by rewrite call_all_cons, IH, callback_button_other.
Qed.

Lemma call_all_dropdown_other (l : list listener) (w : world) cell :
  Forall (λ cb, ∀ oa od, code cb ≠ DropdownOnChange cell oa od) l →
  dropdownStates (call_all l w) !! cell = dropdownStates w !! cell.
Proof.
  intros Hl. revert w. induction Hl as [|cb l Hcb _ IH]; intros w; [done|].
  by rewrite call_all_cons, IH, callback_dropdown_other.
Qed.

(** The last listener that targets a cell decides its content. *)
Lemma call_all_button (l1 l2 : list listener) cb (w : world) cell oa od :
  code cb = ButtonOnChange cell oa od →
  cell < length (buttonStates w) →
  Forall (λ cb', ∀ oa od, code cb' ≠ ButtonOnChange cell oa od) l2 →
  buttonStates (call_all (l1 ++ cb :: l2) w) !! cell
  = Some {| active := match oa with
                      | Some f => f (core (editor w))
                      | None => false
                      end;
            disabled := match od with
                        | Some f => f (core (editor w))
                        | None => false
                        end |}.
Proof.
  intros Hc Hlt Hl2.
  rewrite call_all_app, call_all_cons, call_all_button_other by done.
  rewrite (callback_button _ _ cell oa od), call_all_editor; [done..|].
  destruct (call_all_wiring l1 w) as (_&_&_&_&_&_&_&->&_). done.
Qed.

Lemma call_all_dropdown (l1 l2 : list listener) cb (w : world) cell oa od :
  code cb = DropdownOnChange cell oa od →
  cell < length (dropdownStates w) →
  Forall (λ cb', ∀ oa od, code cb' ≠ DropdownOnChange cell oa od) l2 →
  dropdownStates (call_all (l1 ++ cb :: l2) w) !! cell
  = Some {| value := match oa with
                     | Some f => Some (f (core (editor w)))
                     | None => None
                     end;
            dd_disabled := match od with
                           | Some f => f (core (editor w))
                           | None => false
                           end |}.
Proof.
  intros Hc Hlt Hl2.
  rewrite call_all_app, call_all_cons, call_all_dropdown_other by done.
  rewrite (callback_dropdown _ _ cell oa od), call_all_editor; [done..|].
  destruct (call_all_wiring l1 w) as (_&_&_&_&_&_&_&_&->). done.
Qed.

(** No listener changes the array, so [forEach] visits the elements it
    started with. *)
Lemma forEach_from_call_all n k (w : world) :
  forEach_from n k w = call_all (take n (drop k (eventListeners w))) w.
Proof.
  revert k w. induction n as [|n IH]; intros k w; [done|].
  simpl. destruct (eventListeners w !! k) as [cb|] eqn:E.
  - rewrite IH.
    destruct (callback_wiring cb w) as (_&_&_&->&_).
    by rewrite (drop_S _ _ _ E).
  - rewrite IH.
    rewrite (drop_ge _ k) by (by apply lookup_ge_None).
    rewrite (drop_ge _ (S k)) by (apply lookup_ge_None in E; lia).
    by rewrite !take_nil.
Qed.

Lemma dispatch_call_all (w : world) :
  dispatch w = call_all (eventListeners w) w.
Proof.
  unfold dispatch. rewrite forEach_from_call_all. simpl.
  by rewrite drop_0, firstn_all.
Qed.

Lemma dispatch_wiring (w : world) : wiring w (dispatch w).
Proof. rewrite dispatch_call_all. apply call_all_wiring. Qed.

Lemma dispatch_editor (w : world) : editor (dispatch w) = editor w.
Proof. rewrite dispatch_call_all. apply call_all_editor. Qed.

Lemma dispatch_items (w : world) : items (dispatch w) = items w.
Proof. rewrite dispatch_call_all. apply call_all_items. Qed.

Lemma dispatch_calls (w : world) :
  calls (dispatch w)
  = calls w ++ invocations (eventListeners w) (core (editor w)).
Proof. rewrite dispatch_call_all. apply call_all_calls. Qed.
End Dispatch.

(** ** Calling the selection-change hook *)

Section Notification.
Context {Core UIButton UIDropdown : Type}.
Local Abbreviation world := (World Core UIButton UIDropdown).
Local Abbreviation listener := (EditorChangeHandler Core).
Local Abbreviation handler := (SelectionHandler Core UIButton UIDropdown).

Lemma set_core_wiring c (w : world) : wiring w (set_core c w).
Proof. by repeat split. Qed.

Lemma setItems_wiring l (w : world) : wiring w (setItems l w).
Proof. by repeat split. Qed.

Lemma call_onSelectionChange_wiring this (h : handler) (w : world) :
  wiring w (state_of (call_onSelectionChange this h w)).
Proof.
  revert this w. induction h as [f|f|h IH ip]; intros this w; simpl.
  - apply set_core_wiring.
  - destruct this; [apply set_core_wiring|apply wiring_refl].
  - specialize (IH ThisUndefined w).
    destruct (call_onSelectionChange ThisUndefined h w) as [w1|w1];
      simpl in *; [|done].
    destruct (onToolbar (editor (dispatch w1))) as [hook|]; simpl.
    + eapply wiring_trans; [exact IH|].
      eapply wiring_trans; [apply dispatch_wiring|apply setItems_wiring].
    + eapply wiring_trans; [exact IH|apply dispatch_wiring].
Qed.

Lemma Returned_wiring {this} (h : handler) (w w' : world) :
  call_onSelectionChange this h w = Returned w' → wiring w w'.
Proof.
  intros H. pose proof (call_onSelectionChange_wiring this h w) as Hw.
  by rewrite H in Hw.
Qed.

(** With [onToolbar] in place the hook returns, whatever it wraps. *)
Lemma call_onSelectionChange_total this (h : handler) (w : world) :
  is_Some (onToolbar (editor w)) →
  ∃ w', call_onSelectionChange this h w = Returned w'.
Proof.
  revert this w. induction h as [f|f|h IH ip]; intros this w Hw; simpl;
    [by eexists|destruct this; by eexists|].
  destruct (IH ThisUndefined w Hw) as [w1 E1]. rewrite E1.
  destruct (Returned_wiring _ _ _ E1) as (_&Ht&_).
  destruct (dispatch_wiring w1) as (_&Hd&_).
  rewrite Hd, Ht. destruct Hw as [hook ->]. by eexists.
Qed.

(** The three steps of the arrow function installed by the effect. *)
Lemma ToolbarHandler_steps {this} (h : handler) ip (w w' : world) :
  call_onSelectionChange this (ToolbarHandler h ip) w = Returned w' ↔
  ∃ w1 hook,
    call_onSelectionChange ThisUndefined h w = Returned w1
    ∧ onToolbar (editor w1) = Some hook
    ∧ w' = setItems (hook (default [] ip)) (dispatch w1).
Proof.
  simpl. split.
  - destruct (call_onSelectionChange ThisUndefined h w) as [w1|w1]; [|done].
    destruct (onToolbar (editor (dispatch w1))) as [hook|] eqn:E; [|done].
    intros [= <-]. exists w1, hook. by rewrite <- E, dispatch_editor.
  - intros (w1 & hook & -> & E & ->).
    by rewrite dispatch_editor, E.
Qed.
End Notification.

(** ** The registry under subscription and unsubscription *)

Section Registry.
Context {Core UIButton UIDropdown : Type}.
Local Abbreviation world := (World Core UIButton UIDropdown).
Local Abbreviation listener := (EditorChangeHandler Core).

Lemma same_true (a b : listener) : same a b = true ↔ ref a = ref b.
Proof. unfold same. by rewrite bool_decide_eq_true. Qed.

Lemma same_false (a b : listener) : same a b = false ↔ ref a ≠ ref b.
Proof. unfold same. by rewrite bool_decide_eq_false. Qed.

(** Unsubscribing keeps the order of what stays, adds nothing, and leaves
    no listener with the reference of the one unsubscribed. *)
Lemma unsubscribe_sorted (l : list listener) (cb : listener) :
  StronglySorted lt (ref <$> l) →
  StronglySorted lt (ref <$> splice l (indexOf same l cb) 1)
  ∧ (∀ z, z ∈ splice l (indexOf same l cb) 1 → z ∈ l)
  ∧ Forall (λ z, ref z ≠ ref cb) (splice l (indexOf same l cb) 1).
Proof.
  intros Hs.
  destruct (splice_indexOf same l cb)
    as [(l1 & y & l2 & -> & Hl1 & Hy & ->)
       |(Hl & [[-> ->]|(l1 & y & -> & ->)])].
  - rewrite fmap_app, fmap_cons in Hs.
    apply StronglySorted_app in Hs as (Hx & Hs1 & Hs2).
    apply StronglySorted_cons in Hs2 as (Hy2 & Hs2).
    apply same_true in Hy.
    split; [|split].
    + rewrite fmap_app. apply StronglySorted_app_2; [|done..].
      intros x1 x2 H1 H2. apply Hx; [done|]. by right.
    + intros z Hz. apply elem_of_app in Hz as [?|?];
        apply elem_of_app; [by left|right; by right].
    + apply Forall_app. split.
      * eapply Forall_impl; [exact Hl1|]. intros z Hz. by apply same_false.
      * rewrite Forall_fmap in Hy2.
        eapply Forall_impl; [exact Hy2|]. simpl. intros z Hz. lia.
  - split; [done|]. split; [done|]. constructor.
  - rewrite fmap_app in Hs. apply StronglySorted_app_1_l in Hs.
    split; [done|]. split.
    + intros z Hz. apply elem_of_app. by left.
    + apply Forall_app in Hl as [Hl _].
      eapply Forall_impl; [exact Hl|]. intros z Hz. by apply same_false.
Qed.

Lemma registered_wiring (w w' : world) :
  wiring w w' → registered w → registered w'.
Proof.
  intros (_&_&_&Hl&Hn&Hb&Hd&Hlb&Hld) (H1&H2&H3&H4&H5).
  unfold registered, owned in *. rewrite Hl, Hn, Hb, Hd, Hlb, Hld. done.
Qed.

Lemma hooked_wiring e (w w' : world) :
  wiring w w' → hooked e w → hooked e w'.
Proof.
  intros (Hs&Ho&Ht&_) (H1&H2).
  unfold hooked. rewrite Hs, Ho, Ht. done.
Qed.

Lemma Inv_wiring e (w w' : world) : wiring w w' → Inv e w → Inv e w'.
Proof.
  intros Hw [H1 H2]. split;
    [by eapply registered_wiring|by eapply hooked_wiring].
Qed.

(** After the cleanup of a button no listener of the registry writes to
    its cells. *)
Lemma ToolbarButton_cleanup_registered (w : world) cell :
  registered w →
  registered (ToolbarButton_cleanup cell w)
  ∧ Forall (λ z, ∀ oa od, code z ≠ ButtonOnChange cell oa od)
      (eventListeners (ToolbarButton_cleanup cell w))
  ∧ length (buttonEffects (ToolbarButton_cleanup cell w))
    = length (buttonEffects w).
Proof.
  intros (H1&H2&H3&H4&H5). unfold ToolbarButton_cleanup.
  destruct (buttonEffects w !! cell) as [[cb|]|] eqn:E.
  - destruct (unsubscribe_sorted (eventListeners w) cb H1)
      as (Hs & Hin & Hgone).
    simpl. rewrite length_insert.
    split; [|split; [|done]].
    + unfold registered, owned. simpl. rewrite length_insert.
      split; [done|]. split; [|split; [|done]].
      * apply Forall_forall. intros z Hz.
        rewrite Forall_forall in H2. apply H2, Hin, Hz.
      * apply Forall_forall. intros z Hz.
        rewrite Forall_forall in H3, Hgone.
        specialize (H3 z (Hin z Hz)). specialize (Hgone z Hz).
        unfold owned in H3. destruct (code z) as [c oa od|c oa od]; [|done].
        destruct (decide (c = cell)) as [->|Hne].
        -- rewrite E in H3. by injection H3 as ->.
        -- by rewrite list_lookup_insert_ne.
    + apply Forall_forall. intros z Hz oa od Hc.
      rewrite Forall_forall in H3, Hgone.
      specialize (H3 z (Hin z Hz)). specialize (Hgone z Hz).
      unfold owned in H3. rewrite Hc, E in H3. by injection H3 as ->.
  - split; [done|]. split; [|done].
    apply Forall_forall. intros z Hz oa od Hc.
    rewrite Forall_forall in H3. specialize (H3 z Hz).
    unfold owned in H3. rewrite Hc, E in H3. done.
  - split; [done|]. split; [|done].
    apply Forall_forall. intros z Hz oa od Hc.
    rewrite Forall_forall in H3. specialize (H3 z Hz).
    unfold owned in H3. rewrite Hc, E in H3. done.
Qed.

Lemma ToolbarButton_effect_registered (w : world) cell oa od :
  registered w →
  cell < length (buttonEffects w) →
  Forall (λ z, ∀ oa od, code z ≠ ButtonOnChange cell oa od)
    (eventListeners w) →
  registered (ToolbarButton_effect cell oa od w).
Proof.
  intros (H1&H2&H3&H4&H5) Hlt Hfree.
  unfold registered, ToolbarButton_effect, addEventListener, push, owned.
  simpl. rewrite length_insert, fmap_app.
  split; [|split; [|split; [|done]]].
  - apply StronglySorted_app_2; [|done|repeat constructor].
    intros x1 x2 Hx1 Hx2. apply list_elem_of_singleton in Hx2 as ->.
    apply list_elem_of_fmap in Hx1 as (z & -> & Hz).
    rewrite Forall_forall in H2. by apply H2.
  - apply Forall_app. split; [|repeat constructor; simpl; lia].
    eapply Forall_impl; [exact H2|]. simpl. intros z Hz. lia.
  - apply Forall_app. split.
    + apply Forall_forall. intros z Hz.
      rewrite Forall_forall in H3, Hfree.
      specialize (H3 z Hz). specialize (Hfree z Hz). unfold owned in H3.
      destruct (code z) as [c oa' od'|c oa' od']; [|done].
      rewrite list_lookup_insert_ne; [done|].
      intros <-. by eapply Hfree.
    + repeat constructor. simpl. by apply list_lookup_insert_eq.
Qed.

Lemma ToolbarDropdown_cleanup_registered (w : world) cell :
  registered w →
  registered (ToolbarDropdown_cleanup cell w)
  ∧ Forall (λ z, ∀ oa od, code z ≠ DropdownOnChange cell oa od)
      (eventListeners (ToolbarDropdown_cleanup cell w))
  ∧ length (dropdownEffects (ToolbarDropdown_cleanup cell w))
    = length (dropdownEffects w).
Proof.
  intros (H1&H2&H3&H4&H5). unfold ToolbarDropdown_cleanup.
  destruct (dropdownEffects w !! cell) as [[cb|]|] eqn:E.
  - destruct (unsubscribe_sorted (eventListeners w) cb H1)
      as (Hs & Hin & Hgone).
    simpl. rewrite length_insert.
    split; [|split; [|done]].
    + unfold registered, owned. simpl. rewrite length_insert.
      split; [done|]. split; [|split; [|done]].
      * apply Forall_forall. intros z Hz.
        rewrite Forall_forall in H2. apply H2, Hin, Hz.
      * apply Forall_forall. intros z Hz.
        rewrite Forall_forall in H3, Hgone.
        specialize (H3 z (Hin z Hz)). specialize (Hgone z Hz).
        unfold owned in H3. destruct (code z) as [c oa od|c oa od]; [done|].
        destruct (decide (c = cell)) as [->|Hne].
        -- rewrite E in H3. by injection H3 as ->.
        -- by rewrite list_lookup_insert_ne.
    + apply Forall_forall. intros z Hz oa od Hc.
      rewrite Forall_forall in H3, Hgone.
      specialize (H3 z (Hin z Hz)). specialize (Hgone z Hz).
      unfold owned in H3. rewrite Hc, E in H3. by injection H3 as ->.
  - split; [done|]. split; [|done].
    apply Forall_forall. intros z Hz oa od Hc.
    rewrite Forall_forall in H3. specialize (H3 z Hz).
    unfold owned in H3. rewrite Hc, E in H3. done.
  - split; [done|]. split; [|done].
    apply Forall_forall. intros z Hz oa od Hc.
    rewrite Forall_forall in H3. specialize (H3 z Hz).
    unfold owned in H3. rewrite Hc, E in H3. done.
Qed.

Lemma ToolbarDropdown_effect_registered (w : world) cell oa od :
  registered w →
  cell < length (dropdownEffects w) →
  Forall (λ z, ∀ oa od, code z ≠ DropdownOnChange cell oa od)
    (eventListeners w) →
  registered (ToolbarDropdown_effect cell oa od w).
Proof.
  intros (H1&H2&H3&H4&H5) Hlt Hfree.
  unfold registered, ToolbarDropdown_effect, addEventListener, push, owned.
  simpl. rewrite length_insert, fmap_app.
  split; [|split; [|split; [|done]]].
  - apply StronglySorted_app_2; [|done|repeat constructor].
    intros x1 x2 Hx1 Hx2. apply list_elem_of_singleton in Hx2 as ->.
    apply list_elem_of_fmap in Hx1 as (z & -> & Hz).
    rewrite Forall_forall in H2. by apply H2.
  - apply Forall_app. split; [|repeat constructor; simpl; lia].
    eapply Forall_impl; [exact H2|]. simpl. intros z Hz. lia.
  - apply Forall_app. split.
    + apply Forall_forall. intros z Hz.
      rewrite Forall_forall in H3, Hfree.
      specialize (H3 z Hz). specialize (Hfree z Hz). unfold owned in H3.
      destruct (code z) as [c oa' od'|c oa' od']; [done|].
      rewrite list_lookup_insert_ne; [done|].
      intros <-. by eapply Hfree.
    + repeat constructor. simpl. by apply list_lookup_insert_eq.
Qed.

(** A new instance takes the next pair of cells, which no listener of the
    registry can target yet. *)
Lemma ToolbarButton_mount_registered (w : world) b :
  registered w → registered (ToolbarButton_mount b w).
Proof.
  intros (H1&H2&H3&H4&H5). unfold ToolbarButton_mount.
  apply ToolbarButton_effect_registered.
  - unfold registered, owned. simpl. rewrite !length_app, H4.
    split; [done|]. split; [done|]. split; [|done].
    eapply Forall_impl; [exact H3|]. intros z Hz. unfold owned in Hz.
    destruct (code z) as [c oa od|c oa od]; [|done].
    rewrite lookup_app_l; [done|]. by eapply lookup_lt_Some.
  - simpl. rewrite length_app, H4. simpl. lia.
  - simpl. apply Forall_forall. intros z Hz oa od Hc.
    rewrite Forall_forall in H3. specialize (H3 z Hz).
    unfold owned in H3. rewrite Hc, H4 in H3.
    apply lookup_lt_Some in H3. lia.
Qed.

Lemma ToolbarDropdown_mount_registered (w : world) d :
  registered w → registered (ToolbarDropdown_mount d w).
Proof.
  intros (H1&H2&H3&H4&H5). unfold ToolbarDropdown_mount.
  apply ToolbarDropdown_effect_registered.
  - unfold registered, owned. simpl. rewrite !length_app, H5.
    split; [done|]. split; [done|]. split; [|done].
    eapply Forall_impl; [exact H3|]. intros z Hz. unfold owned in Hz.
    destruct (code z) as [c oa od|c oa od]; [done|].
    rewrite lookup_app_l; [done|]. by eapply lookup_lt_Some.
  - simpl. rewrite length_app, H5. simpl. lia.
  - simpl. apply Forall_forall. intros z Hz oa od Hc.
    rewrite Forall_forall in H3. specialize (H3 z Hz).
    unfold owned in H3. rewrite Hc, H5 in H3.
    apply lookup_lt_Some in H3. lia.
Qed.

Lemma ToolbarButton_update_registered (w : world) cell b :
  subscribed (buttonEffects w) cell = true →
  registered w → registered (ToolbarButton_update cell b w).
Proof.
  intros Hsub Hw. unfold ToolbarButton_update.
  destruct (ToolbarButton_cleanup_registered w cell Hw) as (Hr & Hfree & Hlen).
  apply ToolbarButton_effect_registered; [done| |done].
  rewrite Hlen. unfold subscribed in Hsub.
  destruct (buttonEffects w !! cell) eqn:E; [|done].
  by eapply lookup_lt_Some.
Qed.

Lemma ToolbarDropdown_update_registered (w : world) cell d :
  subscribed (dropdownEffects w) cell = true →
  registered w → registered (ToolbarDropdown_update cell d w).
Proof.
  intros Hsub Hw. unfold ToolbarDropdown_update.
  destruct (ToolbarDropdown_cleanup_registered w cell Hw)
    as (Hr & Hfree & Hlen).
  apply ToolbarDropdown_effect_registered; [done| |done].
  rewrite Hlen. unfold subscribed in Hsub.
  destruct (dropdownEffects w !! cell) eqn:E; [|done].
  by eapply lookup_lt_Some.
Qed.

(** The item components never touch the editor or the Toolbar phase. *)
Lemma ToolbarButton_cleanup_editor (w : world) cell :
  editor (ToolbarButton_cleanup cell w) = editor w
  ∧ toolbar (ToolbarButton_cleanup cell w) = toolbar w.
Proof.
  unfold ToolbarButton_cleanup.
  by destruct (buttonEffects w !! cell) as [[cb|]|].
Qed.

Lemma ToolbarDropdown_cleanup_editor (w : world) cell :
  editor (ToolbarDropdown_cleanup cell w) = editor w
  ∧ toolbar (ToolbarDropdown_cleanup cell w) = toolbar w.
Proof.
  unfold ToolbarDropdown_cleanup.
  by destruct (dropdownEffects w !! cell) as [[cb|]|].
Qed.

Lemma hooked_ext e (w w' : world) :
  editor w' = editor w → toolbar w' = toolbar w → hooked e w → hooked e w'.
Proof. unfold hooked. by intros -> ->. Qed.

(** The Toolbar effects do not touch the registry. *)
Lemma Toolbar_effect_wiring ip (w : world) :
  eventListeners (Toolbar_effect ip w) = eventListeners w
  ∧ nextRef (Toolbar_effect ip w) = nextRef w
  ∧ buttonEffects (Toolbar_effect ip w) = buttonEffects w
  ∧ dropdownEffects (Toolbar_effect ip w) = dropdownEffects w
  ∧ length (buttonStates (Toolbar_effect ip w)) = length (buttonStates w)
  ∧ length (dropdownStates (Toolbar_effect ip w))
    = length (dropdownStates w)
  ∧ editor (Toolbar_effect ip w)
    = {| core := core (editor w);
         onSelectionChange :=
           ToolbarHandler (onSelectionChange (editor w)) ip;
         onToolbar := onToolbar (editor w) |}
  ∧ toolbar (Toolbar_effect ip w) = Mounted (onSelectionChange (editor w)).
Proof.
  unfold Toolbar_effect. simpl.
  destruct (dispatch_wiring
              (set_onSelectionChange
                 (ToolbarHandler (onSelectionChange (editor w)) ip) w))
    as (_&_&_&->&->&->&->&->&->).
  by rewrite dispatch_editor.
Qed.

Lemma registered_ext (w w' : world) :
  eventListeners w' = eventListeners w →
  nextRef w' = nextRef w →
  buttonEffects w' = buttonEffects w →
  dropdownEffects w' = dropdownEffects w →
  length (buttonStates w') = length (buttonStates w) →
  length (dropdownStates w') = length (dropdownStates w) →
  registered w → registered w'.
Proof.
  intros Hl Hn Hb Hd Hlb Hld (H1&H2&H3&H4&H5).
  unfold registered, owned in *. rewrite Hl, Hn, Hb, Hd, Hlb, Hld. done.
Qed.

Lemma Toolbar_cleanup_registry (w : world) :
  eventListeners (Toolbar_cleanup w) = eventListeners w
  ∧ nextRef (Toolbar_cleanup w) = nextRef w
  ∧ buttonEffects (Toolbar_cleanup w) = buttonEffects w
  ∧ dropdownEffects (Toolbar_cleanup w) = dropdownEffects w
  ∧ buttonStates (Toolbar_cleanup w) = buttonStates w
  ∧ dropdownStates (Toolbar_cleanup w) = dropdownStates w
  ∧ toolbar (Toolbar_cleanup w) = toolbar w
  ∧ core (editor (Toolbar_cleanup w)) = core (editor w)
  ∧ onToolbar (editor (Toolbar_cleanup w)) = onToolbar (editor w).
Proof.
  unfold Toolbar_cleanup. destruct (toolbar w) eqn:E; simpl; by rewrite ?E.
Qed.

Lemma Inv_initial (e : Editable Core UIButton UIDropdown) :
  Inv e (initial e).
Proof.
  unfold Inv, registered, hooked. simpl.
  repeat split; constructor.
Qed.

Lemma Inv_exec e ev (w w' : world) :
  Inv e w → exec ev w = Some w' → Inv e w'.
Proof.
  intros [Hr Hh] Hex.
  destruct ev; simpl in Hex.
  - (* MountToolbar *)
    destruct (toolbar w) eqn:Et; [|done..]. injection Hex as <-.
    unfold Toolbar_mount.
    destruct (Toolbar_effect_wiring itemsProp
                (set_eventListeners [] (setItems [] w)))
      as (E1&E2&E3&E4&E5&E6&E7&E8).
    destruct Hr as (H1&H2&H3&H4&H5). destruct Hh as [Ho Hs].
    rewrite Et in Hs. split.
    + unfold registered, owned. rewrite E1, E5, E6, E3, E4. simpl.
      repeat split; try done; constructor.
    + unfold hooked. rewrite E7, E8. simpl. repeat split; try done.
      by eexists.
  - (* UpdateToolbar *)
    unfold is_live in Hex. destruct (toolbar w) as [|h|] eqn:Et; [done| |done].
    injection Hex as <-. unfold Toolbar_update.
    destruct (Toolbar_effect_wiring itemsProp (Toolbar_cleanup w))
      as (E1&E2&E3&E4&E5&E6&E7&E8).
    destruct (Toolbar_cleanup_registry w)
      as (C1&C2&C3&C4&C5&C6&C7&C8&C9).
    unfold hooked in Hh. rewrite Et in Hh.
    destruct Hh as [Ho (-> & ip & Hs)]. split.
    + eapply registered_ext; [..|exact Hr]; congruence.
    + unfold hooked. rewrite E7, E8. simpl.
      unfold Toolbar_cleanup. rewrite Et. simpl.
      repeat split; try done. by eexists.
  - (* UnmountToolbar *)
    unfold is_live in Hex. destruct (toolbar w) as [|h|] eqn:Et; [done| |done].
    injection Hex as <-. unfold Toolbar_unmount, Toolbar_cleanup.
    rewrite Et. unfold hooked in Hh. rewrite Et in Hh.
    destruct Hh as [Ho (-> & ip & Hs)]. split.
    + eapply registered_ext; [..|exact Hr]; done.
    + by unfold hooked.
  - destruct (is_live w); [|done]. injection Hex as <-. split.
    + by apply ToolbarButton_mount_registered.
    + eapply hooked_ext; [..|exact Hh]; done.
  - destruct (subscribed (buttonEffects w) cell) eqn:Es; [|done].
    injection Hex as <-. split.
    + by apply ToolbarButton_update_registered.
    + unfold ToolbarButton_update, ToolbarButton_effect.
      eapply hooked_ext; [..|exact Hh]; simpl;
        apply ToolbarButton_cleanup_editor.
  - destruct (subscribed (buttonEffects w) cell) eqn:Es; [|done].
    injection Hex as <-. split.
    + by apply ToolbarButton_cleanup_registered.
    + eapply hooked_ext; [..|exact Hh]; apply ToolbarButton_cleanup_editor.
  - injection Hex as <-. unfold ToolbarButton_handleToogle.
    destruct (btn_onToggle b); [|done].
    eapply Inv_wiring; [|done]. by repeat split.
  - destruct (is_live w); [|done]. injection Hex as <-. split.
    + by apply ToolbarDropdown_mount_registered.
    + eapply hooked_ext; [..|exact Hh]; done.
  - destruct (subscribed (dropdownEffects w) cell) eqn:Es; [|done].
    injection Hex as <-. split.
    + by apply ToolbarDropdown_update_registered.
    + unfold ToolbarDropdown_update, ToolbarDropdown_effect.
      eapply hooked_ext; [..|exact Hh]; simpl;
        apply ToolbarDropdown_cleanup_editor.
  - destruct (subscribed (dropdownEffects w) cell) eqn:Es; [|done].
    injection Hex as <-. split.
    + by apply ToolbarDropdown_cleanup_registered.
    + eapply hooked_ext; [..|exact Hh]; apply ToolbarDropdown_cleanup_editor.
  - injection Hex as <-. unfold ToolbarDropdown_handleToogle.
    destruct (dd_onToggle d); [|done].
    eapply Inv_wiring; [|done]. by repeat split.
  - injection Hex as <-. eapply Inv_wiring; [|done].
    apply call_onSelectionChange_wiring.
  - injection Hex as <-. eapply Inv_wiring; [|done]. by repeat split.
Qed.

Lemma Inv_run e evs (w w' : world) :
  Inv e w → run evs w = Some w' → Inv e w'.
Proof.
  revert w. induction evs as [|ev evs IH]; intros w Hw Hrun; simpl in Hrun.
  - by injection Hrun as <-.
  - destruct (exec ev w) as [w1|] eqn:E; [|done].
    eapply IH; [|done]. by eapply Inv_exec.
Qed.

Lemma reachable_Inv (w : world) : reachable w → ∃ e, Inv e w.
Proof.
  intros (e & evs & Hrun). exists e.
  eapply Inv_run; [apply Inv_initial|done].
Qed.
End Registry.

(** ** Rendering, [withToolbar] and [ToolbarEditor] *)

Section Static.
Context {Core UIButton UIDropdown : Type}.
Local Abbreviation world := (World Core UIButton UIDropdown).
Local Abbreviation item := (ToolbarItem Core UIButton UIDropdown).
Local Abbreviation store := (Store Core UIButton UIDropdown).
Local Abbreviation options := (Toolbar Core UIButton UIDropdown).

(** C7: [renderItem] maps an item by its kind: ['separator'] to a
    [ToolbarSeparator], a button descriptor to a [ToolbarButton] with the
    descriptor as props, a dropdown descriptor to a [ToolbarDropdown] with
    the descriptor as props, each under the key it is given; an item is of
    one of these three kinds; the Toolbar renders its items this way, keyed
    by their index. *)
Theorem renderItem_by_kind :
  (∀ key, renderItem (separator : item) key = ToolbarSeparator_el key)
  ∧ (∀ b key, renderItem (button b : item) key = ToolbarButton_el key b)
  ∧ (∀ d key, renderItem (dropdown d : item) key = ToolbarDropdown_el key d)
  ∧ (∀ it : item,
       it = separator ∨ (∃ b, it = button b) ∨ (∃ d, it = dropdown d))
  ∧ (∀ (w : world) key it,
       items w !! key = Some it →
       Toolbar_children w !! key = Some (renderItem it key))
  ∧ (∀ w : world, length (Toolbar_children w) = length (items w)).
Proof.
  repeat split.
  - intros [|b|d]; eauto.
  - intros w key it Hit. unfold Toolbar_children.
    by rewrite list_lookup_imap, Hit.
  - intros w. unfold Toolbar_children. apply length_imap.
Qed.

Lemma withToolbar_getOptions e (o : option options) (s : store) :
  ToolbarEditor_getOptions e (withToolbar e o s).2
  = default {| tb_items := None |} o.
Proof.
  unfold ToolbarEditor_getOptions, withToolbar. simpl.
  by rewrite lookup_insert_eq.
Qed.

Lemma withToolbar_getOptions_ne e e' (o : option options) (s : store) :
  e ≠ e' →
  ToolbarEditor_getOptions e' (withToolbar e o s).2
  = ToolbarEditor_getOptions e' s.
Proof.
  intros Hne. unfold ToolbarEditor_getOptions, withToolbar. simpl.
  by rewrite lookup_insert_ne.
Qed.

(** C9: after [withToolbar(editor, options)], [getOptions(editor)] is the
    options passed (the empty options when they are omitted); on an editor
    that no call of [withToolbar] received, [getOptions] is the empty
    options. *)
Theorem getOptions_withToolbar :
  (∀ e (o : options) (s : store),
     ToolbarEditor_getOptions e (withToolbar e (Some o) s).2 = o)
  ∧ (∀ e (s : store),
       ToolbarEditor_getOptions e (withToolbar e None s).2
       = {| tb_items := None |})
  ∧ (∀ h (l : list (nat * option options)) e,
       e ∉ l.*1 →
       ToolbarEditor_getOptions e (withToolbar_all l (fresh_store h))
       = {| tb_items := None |}).
Proof.
  split; [|split].
  - intros e o s. by rewrite withToolbar_getOptions.
  - intros e s. by rewrite withToolbar_getOptions.
  - intros h l e Hl.
    assert (ToolbarEditor_getOptions e (fresh_store h)
            = {| tb_items := None |}) as H0 by done.
    revert H0. generalize (fresh_store h). revert Hl.
    induction l as [|[e' o] l IH]; intros Hl s Hs; [done|].
    change (withToolbar_all ((e', o) :: l) s)
      with (withToolbar_all l (withToolbar e' o s).2).
    apply IH.
    + intros Hin. apply Hl. simpl. by right.
    + rewrite withToolbar_getOptions_ne; [done|].
      intros ->. apply Hl. simpl. by left.
Qed.

(** C10: [withToolbar] returns the reference it was given; of the fields
    of that object only [onToolbar] is set, to a function that returns its
    argument; the other objects are untouched; the editor is then a
    [ToolbarEditor]. *)
Theorem withToolbar_frame e (o : option options) (s : store) ed :
  heap s !! e = Some ed →
  (withToolbar e o s).1 = e
  ∧ (∃ hook,
       heap (withToolbar e o s).2 !! e
       = Some {| core := core ed;
                 onSelectionChange := onSelectionChange ed;
                 onToolbar := Some hook |}
       ∧ ∀ l, hook l = l)
  ∧ (∀ e', e' ≠ e → heap (withToolbar e o s).2 !! e' = heap s !! e')
  ∧ ToolbarEditor_isToolbarEditor e (withToolbar e o s).2 = true.
Proof.
  intros He. unfold ToolbarEditor_isToolbarEditor, withToolbar. simpl.
  rewrite lookup_alter_eq, He. simpl.
  split; [done|]. split; [by eexists|]. split; [|done].
  intros e' Hne. by rewrite lookup_alter_ne.
Qed.
End Static.

(** C7 on the sample Toolbar after a notification: its third child. *)
Lemma renderItem_by_kind_sample :
  items sample_notified !! 2 = Some (dropdown heading)
  ∧ Toolbar_children sample_notified !! 2 = Some (ToolbarDropdown_el 2 heading).
Proof.
  assert (items sample_notified !! 2 = Some (dropdown heading)) as H
    by (vm_compute; reflexivity).
  split; [exact H|].
  exact (proj1 (proj2 (proj2 (proj2 (proj2 renderItem_by_kind))))
           sample_notified 2 (dropdown heading) H).
Defined.

(** An instance of C9 on the sample store. *)
Lemma getOptions_withToolbar_sample :
  (2 ∉ fst <$> [(1, Some sample_options)])
  ∧ ToolbarEditor_getOptions 2
      (withToolbar_all [(1, Some sample_options)] (fresh_store (heap sample_store)))
    = {| tb_items := None |}.
Proof.
  split.
  - simpl. intros H. apply list_elem_of_singleton in H. lia.
  - apply (proj2 (proj2 getOptions_withToolbar)).
    simpl. intros H. apply list_elem_of_singleton in H. lia.
Defined.

(** An instance of C10 on the sample store. *)
Lemma withToolbar_frame_sample :
  heap sample_store !! 1 = Some bare_editor
  ∧ (withToolbar 1 None sample_store).1 = 1
  ∧ ToolbarEditor_isToolbarEditor 1 (withToolbar 1 None sample_store).2 = true.
Proof.
  assert (heap sample_store !! 1 = Some bare_editor) as H
    by (simpl; apply lookup_insert_eq).
  split; [exact H|].
  destruct (withToolbar_frame 1 None sample_store bare_editor H)
    as (H1 & _ & _ & H4).
  split; [exact H1|exact H4].
Defined.

(** ** Unsubscribing twice *)

Section Unsubscribe.
Context {Core UIButton UIDropdown : Type}.
Local Abbreviation world := (World Core UIButton UIDropdown).
Local Abbreviation listener := (EditorChangeHandler Core).

(** C8 (the code departs from it): on a registry of listeners with
    distinct references, the first call of the function returned by
    [addEventListener] removes its callback, and a second call of the same
    function removes the last listener of the registry, because
    [indexOf] returns [-1] and [splice(-1, 1)] counts from the end. *)
Theorem unsubscribe_twice (w : world) (l1 l2 : list listener) cb x :
  eventListeners w = l1 ++ cb :: l2 ++ [x] →
  NoDup (ref <$> eventListeners w) →
  eventListeners (unsubscribe cb w) = l1 ++ l2 ++ [x]
  ∧ eventListeners (unsubscribe cb (unsubscribe cb w)) = l1 ++ l2.
Proof.
  intros Hl Hnd. rewrite Hl in Hnd.
  rewrite fmap_app, fmap_cons in Hnd.
  apply NoDup_app in Hnd as (_ & H1 & H2).
  apply NoDup_cons in H2 as (H2 & _).
  assert (Forall (λ z : listener, same z cb = false) l1) as Hl1.
  { apply Forall_forall. intros z Hz. apply same_false. intros Heq.
    apply (H1 (ref z)); [by apply list_elem_of_fmap_2|].
    rewrite Heq. by left. }
  assert (Forall (λ z : listener, same z cb = false) (l2 ++ [x])) as Hl2.
  { apply Forall_forall. intros z Hz. apply same_false. intros Heq.
    apply H2. rewrite <- Heq. by apply list_elem_of_fmap_2. }
  assert (eventListeners (unsubscribe cb w) = l1 ++ l2 ++ [x]) as E1.
  { unfold unsubscribe. simpl. rewrite Hl. unfold indexOf.
    rewrite indexOf_from_hit; [|done|by apply same_true].
    rewrite Z.add_0_l. apply splice_one_at. }
  split; [done|].
  remember (unsubscribe cb w) as w1 eqn:Hw1. clear Hw1.
  unfold unsubscribe. simpl. rewrite E1. unfold indexOf.
  rewrite indexOf_from_miss by (by apply Forall_app).
  rewrite app_assoc. apply splice_one_last.
Qed.
End Unsubscribe.

(** C8 on two mounted buttons: unsubscribing the first one twice empties the
    registry. *)
Lemma unsubscribe_twice_sample :
  eventListeners two_buttons = [] ++ bold_onChange :: [] ++ [plain_onChange]
  ∧ NoDup (ref <$> eventListeners two_buttons)
  ∧ eventListeners (unsubscribe bold_onChange two_buttons) = [plain_onChange]
  ∧ eventListeners
      (unsubscribe bold_onChange (unsubscribe bold_onChange two_buttons)) = [].
Proof.
  assert (eventListeners two_buttons
          = [] ++ bold_onChange :: [] ++ [plain_onChange]) as H
    by reflexivity.
  assert (NoDup (ref <$> eventListeners two_buttons)) as Hnd.
  { change (NoDup [0; 1]). apply NoDup_cons_2; [|apply NoDup_singleton].
    intros H0%list_elem_of_singleton. lia. }
  split; [exact H|]. split; [exact Hnd|].
  exact (unsubscribe_twice two_buttons [] [] bold_onChange plain_onChange H Hnd).
Defined.

(** ** The selection-change wiring of the Toolbar *)

Section Wiring.
Context {Core UIButton UIDropdown : Type}.
Local Abbreviation world := (World Core UIButton UIDropdown).
Local Abbreviation listener := (EditorChangeHandler Core).
Local Abbreviation editable := (Editable Core UIButton UIDropdown).

Lemma Toolbar_mount_editor ip (w : world) :
  editor (Toolbar_mount ip w)
  = {| core := core (editor w);
       onSelectionChange := ToolbarHandler (onSelectionChange (editor w)) ip;
       onToolbar := onToolbar (editor w) |}
  ∧ toolbar (Toolbar_mount ip w) = Mounted (onSelectionChange (editor w))
  ∧ eventListeners (Toolbar_mount ip w) = []
  ∧ items (Toolbar_mount ip w) = [].
Proof.
  unfold Toolbar_mount.
  destruct (Toolbar_effect_wiring ip (set_eventListeners [] (setItems [] w)))
    as (E1&_&_&_&_&_&E7&E8).
  rewrite E1, E7, E8. repeat split.
Qed.

(** C1 (as amended): when the handler the mount finds is a closure of the
    host, which does not use its receiver, the mount replaces
    [editor.onSelectionChange] by a function that captured it, and every
    call of the new hook, in any later state [v], first does to the editor
    what that handler alone does ([v1] below is the state the handler
    returns from [v]), then calls every registered listener once, in the
    order of the registry, on the editor as the handler left it, then sets
    the items from [editor.onToolbar], or throws when the editor has no
    [onToolbar]. *)
Theorem Toolbar_mount_wraps_onSelectionChange ip (w : world) f :
  onSelectionChange (editor w) = HostHandler f →
  onSelectionChange (editor (Toolbar_mount ip w))
  = ToolbarHandler (HostHandler f) ip
  ∧ ∀ v : world,
      let v1 := set_core (f (core (editor v))) v in
      let o := call_onSelectionChange ThisEditor
                 (onSelectionChange (editor (Toolbar_mount ip w))) v in
      call_onSelectionChange ThisEditor (HostHandler f) v = Returned v1
      ∧ o = match onToolbar (editor v) with
            | Some hook =>
                Returned (setItems (hook (default [] ip))
                            (call_all (eventListeners v) v1))
            | None => Threw (call_all (eventListeners v) v1)
            end
      ∧ core (editor (state_of o)) = f (core (editor v))
      ∧ calls (state_of o)
        = calls v ++ invocations (eventListeners v) (f (core (editor v)))
      ∧ eventListeners (state_of o) = eventListeners v.
Proof.
  intros Hf. destruct (Toolbar_mount_editor ip w) as (E & _).
  rewrite E, Hf. simpl. split; [done|]. intros v. split; [done|].
  rewrite dispatch_editor, dispatch_call_all. simpl.
  set (v1 := set_core (f (core (editor v))) v).
  assert (core (editor (call_all (eventListeners v) v1)) = f (core (editor v)))
    as Hc by (by rewrite call_all_editor).
  assert (calls (call_all (eventListeners v) v1)
          = calls v ++ invocations (eventListeners v) (f (core (editor v))))
    as Hl by (by rewrite call_all_calls).
  assert (eventListeners (call_all (eventListeners v) v1) = eventListeners v)
    as He by (by destruct (call_all_wiring (eventListeners v) v1)
                   as (_&_&_&->&_)).
  destruct (onToolbar (editor v)); by repeat split.
Qed.

(** C6: the cleanup after the mount puts back the editor as it was, in
    particular the handler the mount found; and in any run of the
    component tree from an editor [e], once the Toolbar is unmounted the
    handler of the editor is the one [e] started with. *)
Theorem Toolbar_cleanup_restores_onSelectionChange :
  (∀ ip (w : world),
     editor (Toolbar_cleanup (Toolbar_mount ip w)) = editor w
     ∧ onSelectionChange (editor (Toolbar_cleanup (Toolbar_mount ip w)))
       = onSelectionChange (editor w))
  ∧ (∀ (e : editable) evs (w : world),
       run evs (initial e) = Some w →
       toolbar w = Unmounted →
       onSelectionChange (editor w) = onSelectionChange e).
Proof.
  split.
  - intros ip w.
    assert (editor (Toolbar_cleanup (Toolbar_mount ip w)) = editor w) as E;
      [|by rewrite E].
    destruct (Toolbar_mount_editor ip w) as (E & Et & _).
    unfold Toolbar_cleanup. rewrite Et.
    unfold set_onSelectionChange, set_editor. cbn [editor].
    rewrite E. cbn [core onToolbar]. by destruct (editor w).
  - intros e evs w Hrun Hu.
    destruct (Inv_run e evs _ _ (Inv_initial e) Hrun) as [_ [_ Hh]].
    by rewrite Hu in Hh.
Qed.

(** C5: a dispatch calls the listeners of the registry, each once, in the
    order of the registry, and leaves the registry as it is; in a run of
    the component tree from an editor with a host handler, a notification
    while the Toolbar is mounted makes exactly these calls, on the editor
    as the host handler left it, whether it then returns or throws, and the
    registry is in the order in which the listeners were created and
    subscribed (increasing references). *)
Theorem dispatch_calls_each_listener_once :
  (∀ w : world,
     calls (dispatch w)
     = calls w ++ invocations (eventListeners w) (core (editor w))
     ∧ eventListeners (dispatch w) = eventListeners w)
  ∧ (∀ (e : editable) f evs (w : world),
       onSelectionChange e = HostHandler f →
       run evs (initial e) = Some w →
       is_live w = true →
       calls (state_of (notify w))
       = calls w ++ invocations (eventListeners w) (f (core (editor w)))
       ∧ StronglySorted lt (ref <$> eventListeners w)
       ∧ Forall (λ cb, ref cb < nextRef w) (eventListeners w)).
Proof.
  split.
  - intros w. split; [apply dispatch_calls|].
    by destruct (dispatch_wiring w) as (_&_&_&->&_).
  - intros e f evs w He Hrun Hlive.
    destruct (Inv_run e evs _ _ (Inv_initial e) Hrun)
      as [(Hs&Hlt&_) [_ Hh]].
    split; [|done].
    unfold is_live in Hlive.
    destruct (toolbar w) as [|h|]; [done| |done].
    destruct Hh as (-> & ip & Hw).
    unfold notify. rewrite Hw, He. simpl.
    destruct (onToolbar (editor (dispatch (set_core (f (core (editor w))) w))));
      simpl; by rewrite dispatch_calls.
Qed.

(** In a registry in order, a listener is the only one that writes to the
    cells of its owner: nothing that follows it targets them. *)
Lemma owner_last_button (w : world) (l1 l2 : list listener) cb cell oa od :
  registered w →
  eventListeners w = l1 ++ cb :: l2 →
  code cb = ButtonOnChange cell oa od →
  Forall (λ z, ∀ oa od, code z ≠ ButtonOnChange cell oa od) l2
  ∧ cell < length (buttonStates w).
Proof.
  intros (Hs&_&Ho&Hlen&_) Hl Hc. rewrite Hl in Hs, Ho.
  rewrite fmap_app, fmap_cons in Hs.
  apply StronglySorted_app_1_r, StronglySorted_cons in Hs as [Hs _].
  apply Forall_app in Ho as [_ Ho]. apply Forall_cons in Ho as [Hcb Ho].
  unfold owned in Hcb. rewrite Hc in Hcb. split.
  - apply Forall_forall. intros z Hz oa' od' Hz'.
    rewrite Forall_forall in Ho. specialize (Ho z Hz).
    unfold owned in Ho. rewrite Hz', Hcb in Ho. injection Ho as ->.
    rewrite Forall_forall in Hs.
    specialize (Hs (ref z) (list_elem_of_fmap_2 ref _ _ Hz)). lia.
  - rewrite Hlen. by eapply lookup_lt_Some.
Qed.

Lemma owner_last_dropdown (w : world) (l1 l2 : list listener) cb cell oa od :
  registered w →
  eventListeners w = l1 ++ cb :: l2 →
  code cb = DropdownOnChange cell oa od →
  Forall (λ z, ∀ oa od, code z ≠ DropdownOnChange cell oa od) l2
  ∧ cell < length (dropdownStates w).
Proof.
  intros (Hs&_&Ho&_&Hlen) Hl Hc. rewrite Hl in Hs, Ho.
  rewrite fmap_app, fmap_cons in Hs.
  apply StronglySorted_app_1_r, StronglySorted_cons in Hs as [Hs _].
  apply Forall_app in Ho as [_ Ho]. apply Forall_cons in Ho as [Hcb Ho].
  unfold owned in Hcb. rewrite Hc in Hcb. split.
  - apply Forall_forall. intros z Hz oa' od' Hz'.
    rewrite Forall_forall in Ho. specialize (Ho z Hz).
    unfold owned in Ho. rewrite Hz', Hcb in Ho. injection Ho as ->.
    rewrite Forall_forall in Hs.
    specialize (Hs (ref z) (list_elem_of_fmap_2 ref _ _ Hz)). lia.
  - rewrite Hlen. by eapply lookup_lt_Some.
Qed.

(** A notification through the Toolbar ends with a dispatch on the state
    [w1] its captured handler produced. *)
Lemma notify_live e (w w' : world) :
  Inv e w → is_live w = true → notify w = Returned w' →
  ∃ w1, wiring w w1 ∧ registered w1
        ∧ editor w' = editor w1
        ∧ buttonStates w' = buttonStates (dispatch w1)
        ∧ dropdownStates w' = dropdownStates (dispatch w1).
Proof.
  intros [Hr [_ Hh]] Hlive Hn. unfold is_live in Hlive.
  destruct (toolbar w) as [|h|]; [done| |done].
  destruct Hh as (_ & ip & Hw). unfold notify in Hn. rewrite Hw in Hn.
  apply ToolbarHandler_steps in Hn as (w1 & hook & H1 & _ & ->).
  exists w1.
  pose proof (Returned_wiring _ _ _ H1) as Hw1.
  split; [done|]. split; [by eapply registered_wiring|].
  simpl. by rewrite dispatch_editor.
Qed.

Lemma notify_button e (w w' : world) cb cell oa od :
  Inv e w → is_live w = true → notify w = Returned w' →
  cb ∈ eventListeners w →
  code cb = ButtonOnChange cell oa od →
  buttonStates w' !! cell
  = Some {| active := match oa with
                      | Some f => f (core (editor w'))
                      | None => false
                      end;
            disabled := match od with
                        | Some f => f (core (editor w'))
                        | None => false
                        end |}.
Proof.
  intros Hi Hlive Hn Hcb Hc.
  destruct (notify_live e w w' Hi Hlive Hn)
    as (w1 & Hw1 & Hr1 & -> & -> & _).
  destruct Hw1 as (_&_&_&Hl&_). rewrite <- Hl in Hcb.
  apply list_elem_of_split in Hcb as (l1 & l2 & Hsplit).
  destruct (owner_last_button w1 l1 l2 cb cell oa od Hr1 Hsplit Hc)
    as [Hfree Hlt].
  rewrite dispatch_call_all, Hsplit. by apply call_all_button.
Qed.

Lemma notify_dropdown e (w w' : world) cb cell oa od :
  Inv e w → is_live w = true → notify w = Returned w' →
  cb ∈ eventListeners w →
  code cb = DropdownOnChange cell oa od →
  dropdownStates w' !! cell
  = Some {| value := match oa with
                     | Some f => Some (f (core (editor w')))
                     | None => None
                     end;
            dd_disabled := match od with
                           | Some f => f (core (editor w'))
                           | None => false
                           end |}.
Proof.
  intros Hi Hlive Hn Hcb Hc.
  destruct (notify_live e w w' Hi Hlive Hn)
    as (w1 & Hw1 & Hr1 & -> & _ & ->).
  destruct Hw1 as (_&_&_&Hl&_). rewrite <- Hl in Hcb.
  apply list_elem_of_split in Hcb as (l1 & l2 & Hsplit).
  destruct (owner_last_dropdown w1 l1 l2 cb cell oa od Hr1 Hsplit Hc)
    as [Hfree Hlt].
  rewrite dispatch_call_all, Hsplit. by apply call_all_dropdown.
Qed.

(** The items, the toggles, the host and the notifications leave the two
    hooks of the editor as the Toolbar set them. *)
Lemma exec_hooks ev (w w' : world) :
  is_Toolbar_event ev = false → exec ev w = Some w' →
  onSelectionChange (editor w') = onSelectionChange (editor w)
  ∧ onToolbar (editor w') = onToolbar (editor w).
Proof.
  intros Hev Hex. destruct ev; try done; simpl in Hex.
  - destruct (is_live w); [|done]. by injection Hex as <-.
  - destruct (subscribed (buttonEffects w) cell); [|done].
    injection Hex as <-. unfold ToolbarButton_update, ToolbarButton_effect.
    simpl. by rewrite (proj1 (ToolbarButton_cleanup_editor w cell)).
  - destruct (subscribed (buttonEffects w) cell); [|done].
    injection Hex as <-.
    by rewrite (proj1 (ToolbarButton_cleanup_editor w cell)).
  - injection Hex as <-. unfold ToolbarButton_handleToogle.
    by destruct (btn_onToggle b).
  - destruct (is_live w); [|done]. by injection Hex as <-.
  - destruct (subscribed (dropdownEffects w) cell); [|done].
    injection Hex as <-.
    unfold ToolbarDropdown_update, ToolbarDropdown_effect.
    simpl. by rewrite (proj1 (ToolbarDropdown_cleanup_editor w cell)).
  - destruct (subscribed (dropdownEffects w) cell); [|done].
    injection Hex as <-.
    by rewrite (proj1 (ToolbarDropdown_cleanup_editor w cell)).
  - injection Hex as <-. unfold ToolbarDropdown_handleToogle.
    by destruct (dd_onToggle d).
  - injection Hex as <-.
    by destruct (call_onSelectionChange_wiring ThisEditor
                   (onSelectionChange (editor w)) w)
      as (?&?&_).
  - by injection Hex as <-.
Qed.

Lemma run_hooks evs (w w' : world) :
  Forall (λ ev, is_Toolbar_event ev = false) evs → run evs w = Some w' →
  onSelectionChange (editor w') = onSelectionChange (editor w)
  ∧ onToolbar (editor w') = onToolbar (editor w).
Proof.
  intros Hevs. revert w.
  induction Hevs as [|ev evs Hev _ IH]; intros w Hrun; simpl in Hrun.
  - by injection Hrun as <-.
  - destruct (exec ev w) as [w1|] eqn:E; [|done].
    destruct (exec_hooks ev w w1 Hev E) as [<- <-]. by apply IH.
Qed.

Lemma Toolbar_update_editor ip (w : world) :
  (∃ h, onSelectionChange (editor (Toolbar_update ip w)) = ToolbarHandler h ip)
  ∧ onToolbar (editor (Toolbar_update ip w)) = onToolbar (editor w).
Proof.
  unfold Toolbar_update.
  destruct (Toolbar_effect_wiring ip (Toolbar_cleanup w))
    as (_&_&_&_&_&_&E7&_).
  destruct (Toolbar_cleanup_registry w) as (_&_&_&_&_&_&_&_&C9).
  rewrite E7. simpl. split; [by eexists|done].
Qed.

(** C3 (as amended): the Toolbar renders no item at its mount, whatever
    its [items] prop; once its effect has run for an [items] prop (at the
    mount or at an update), and whatever its items, the host and earlier
    notifications do next, a notification on an editor that has
    [onToolbar] returns and leaves as items [editor.onToolbar] of that
    prop (of the empty list when the prop is absent), which are the items
    then rendered. *)
Theorem Toolbar_items_follow_onToolbar :
  (∀ ip (w : world),
     items (Toolbar_mount ip w) = []
     ∧ Toolbar_children (Toolbar_mount ip w) = [])
  ∧ (∀ ip (w0 w1 w : world) evs hook,
       w1 = Toolbar_mount ip w0 ∨ w1 = Toolbar_update ip w0 →
       Forall (λ ev, is_Toolbar_event ev = false) evs →
       run evs w1 = Some w →
       onToolbar (editor w0) = Some hook →
       ∃ w', notify w = Returned w'
         ∧ items w' = hook (default [] ip)
         ∧ Toolbar_children w'
           = imap (λ key item, renderItem item key) (hook (default [] ip))).
Proof.
  split.
  - intros ip w. destruct (Toolbar_mount_editor ip w) as (_&_&_&E).
    unfold Toolbar_children. by rewrite E.
  - intros ip w0 w1 w evs hook Hw1 Hevs Hrun Hhook.
    destruct (run_hooks evs w1 w Hevs Hrun) as [Hs Ho].
    assert ((∃ h, onSelectionChange (editor w1) = ToolbarHandler h ip)
            ∧ onToolbar (editor w1) = Some hook) as [[h Hh] Ho1].
    { destruct Hw1 as [->| ->].
      - destruct (Toolbar_mount_editor ip w0) as (E&_).
        rewrite E. simpl. split; [by eexists|done].
      - destruct (Toolbar_update_editor ip w0) as (E1&E2).
        by rewrite E2. }
    rewrite Hh in Hs. rewrite Ho1 in Ho.
    destruct (call_onSelectionChange_total ThisEditor (ToolbarHandler h ip) w)
      as [w' Hn]; [by rewrite Ho|].
    exists w'. unfold notify. rewrite Hs. split; [done|].
    apply ToolbarHandler_steps in Hn as (v1 & hook' & H1 & H2 & ->).
    destruct (Returned_wiring _ _ _ H1) as (_&Ho'&_).
    rewrite Ho', Ho in H2. injection H2 as <-.
    by unfold Toolbar_children.
Qed.
End Wiring.

(** C3 as first stated fails at the mount: with the items prop
    [sample_items] and the [onToolbar] of [withToolbar], the Toolbar has no
    item, while [editor.onToolbar] of the prop has five. *)
Lemma Toolbar_mount_items_counterexample :
  onToolbar sample_editor = Some (λ items, items)
  ∧ items (Toolbar_mount (Some sample_items) (initial sample_editor))
    ≠ (λ items, items) sample_items
  ∧ Toolbar_children (Toolbar_mount (Some sample_items) (initial sample_editor))
    ≠ imap (λ key item, renderItem item key) ((λ items, items) sample_items).
Proof. repeat split; discriminate. Qed.

(** C1 as first stated fails for a handler that depends on its receiver:
    before the mount a notification runs it on the editor, after the mount
    the wrapper calls it without a receiver and its effect is lost. *)
Lemma Toolbar_mount_method_counterexample :
  onSelectionChange method_editor = HostMethod S
  ∧ core (editor (state_of (notify (initial method_editor)))) = 1
  ∧ onSelectionChange (editor (Toolbar_mount None (initial method_editor)))
    = ToolbarHandler (HostMethod S) None
  ∧ core (editor (state_of (notify (Toolbar_mount None
                                      (initial method_editor))))) = 0
  ∧ core (editor (state_of (notify (Toolbar_mount None
                                      (initial method_editor)))))
    ≠ core (editor (state_of (notify (initial method_editor)))).
Proof. repeat split; discriminate. Qed.

(** ** The properties on the sample configurations *)

Lemma sample_world_reachable : reachable sample_world.
Proof.
  exists sample_editor, sample_events. vm_compute. reflexivity.
Qed.

Lemma two_buttons_reachable : reachable two_buttons.
Proof.
  exists sample_editor, [MountToolbar None; MountButton bold; MountButton plain].
  vm_compute. reflexivity.
Qed.

(** C6 on a run that mounts, updates and unmounts the Toolbar. *)
Lemma Toolbar_cleanup_restores_sample :
  run unmount_events (initial sample_editor) = Some unmounted_world
  ∧ toolbar unmounted_world = Unmounted
  ∧ onSelectionChange (editor unmounted_world) = HostHandler S.
Proof.
  assert (run unmount_events (initial sample_editor) = Some unmounted_world)
    as H1 by (vm_compute; reflexivity).
  assert (toolbar unmounted_world = Unmounted) as H2 by (vm_compute; reflexivity).
  split; [exact H1|]. split; [exact H2|].
  exact (proj2 Toolbar_cleanup_restores_onSelectionChange
           sample_editor unmount_events unmounted_world H1 H2).
Defined.

(** C5 on the sample Toolbar: its four listeners are called in turn. *)
Lemma dispatch_calls_each_listener_once_sample :
  onSelectionChange sample_editor = HostHandler S
  ∧ run sample_events (initial sample_editor) = Some sample_world
  ∧ is_live sample_world = true
  ∧ calls (state_of (notify sample_world)) = [(0, 2); (1, 2); (2, 2); (3, 2)].
Proof.
  assert (run sample_events (initial sample_editor) = Some sample_world)
    as H1 by (vm_compute; reflexivity).
  assert (is_live sample_world = true) as H2 by (vm_compute; reflexivity).
  split; [reflexivity|]. split; [exact H1|]. split; [exact H2|].
  destruct (proj2 dispatch_calls_each_listener_once
              sample_editor S sample_events sample_world
              eq_refl H1 H2) as (Hc & _).
  rewrite Hc. vm_compute. reflexivity.
Defined.

(** C3 as amended on the sample Toolbar: the items after a notification. *)
Lemma Toolbar_items_follow_onToolbar_sample :
  run (tail sample_events)
    (Toolbar_mount (Some sample_items) (initial sample_editor))
  = Some sample_world
  ∧ Forall (λ ev, is_Toolbar_event ev = false) (tail sample_events)
  ∧ ∃ w', notify sample_world = Returned w' ∧ items w' = sample_items.
Proof.
  assert (run (tail sample_events)
            (Toolbar_mount (Some sample_items) (initial sample_editor))
          = Some sample_world) as H1 by (vm_compute; reflexivity).
  assert (Forall (λ ev : Event nat string (list string),
                    is_Toolbar_event ev = false) (tail sample_events)) as H2
    by (repeat constructor).
  split; [exact H1|]. split; [exact H2|].
  destruct (proj2 Toolbar_items_follow_onToolbar
              (Some sample_items) (initial sample_editor)
              (Toolbar_mount (Some sample_items) (initial sample_editor))
              sample_world (tail sample_events) (λ items, items)
              (or_introl eq_refl) H2 H1 eq_refl) as (w' & Hn & Hi & _).
  exists w'. split; [exact Hn|exact Hi].
Defined.

(** ** More on the registry: what unsubscribing removes *)

Section Subscriptions.
Context {Core UIButton UIDropdown : Type}.
Local Abbreviation world := (World Core UIButton UIDropdown).
Local Abbreviation listener := (EditorChangeHandler Core).

(** X1: whatever the callback, the function returned by [addEventListener]
    removes exactly one element of a registry that is not empty: the first
    listener with the reference of the callback when there is one, whatever
    follows it, and else the last listener; it leaves an empty registry
    empty, and never adds a listener. *)
Theorem unsubscribe_removes_one (w : world) (cb : listener) :
  (∀ l1 y l2,
     eventListeners w = l1 ++ y :: l2 →
     Forall (λ z, ref z ≠ ref cb) l1 →
     ref y = ref cb →
     eventListeners (unsubscribe cb w) = l1 ++ l2)
  ∧ (∀ l y,
       eventListeners w = l ++ [y] →
       Forall (λ z, ref z ≠ ref cb) (l ++ [y]) →
       eventListeners (unsubscribe cb w) = l)
  ∧ (eventListeners w = [] → eventListeners (unsubscribe cb w) = [])
  ∧ length (eventListeners (unsubscribe cb w))
    = pred (length (eventListeners w))
  ∧ (∀ z, z ∈ eventListeners (unsubscribe cb w) → z ∈ eventListeners w).
Proof.
  split; [|split; [|split]].
  - intros l1 y l2 Hl Hl1 Hy. unfold unsubscribe, indexOf. simpl. rewrite Hl.
    rewrite indexOf_from_hit.
    + rewrite Z.add_0_l. apply splice_one_at.
    + eapply Forall_impl; [exact Hl1|]. intros z Hz. by apply same_false.
    + by apply same_true.
  - intros l y Hl Hall. unfold unsubscribe, indexOf. simpl. rewrite Hl.
    rewrite indexOf_from_miss.
    + apply splice_one_last.
    + eapply Forall_impl; [exact Hall|]. intros z Hz. by apply same_false.
  - intros Hl. unfold unsubscribe. simpl. by rewrite Hl.
  - unfold unsubscribe. simpl.
    destruct (splice_indexOf same (eventListeners w) cb)
      as [(l1 & y & l2 & Hl & _ & _ & Hr)
         |(_ & [[Hl Hr]|(l1 & y & Hl & Hr)])];
      rewrite Hr, Hl.
    + split.
      * rewrite !length_app. simpl. lia.
      * intros z Hz. apply elem_of_app in Hz as [?|?];
          apply elem_of_app; [by left|right; by right].
    + done.
    + split.
      * rewrite length_app. simpl. lia.
      * intros z Hz. apply elem_of_app. by left.
Qed.

(** X2: subscribing a callback whose reference is not in the registry and
    then calling the function returned puts the registry back; when a
    listener with that reference is already there, it is the earlier one
    that goes and the new one stays last. *)
Theorem subscribe_then_unsubscribe (w : world) (cb : listener) :
  (Forall (λ z, ref z ≠ ref cb) (eventListeners w) →
   eventListeners (unsubscribe cb (addEventListener cb w)) = eventListeners w)
  ∧ (∀ l1 y l2,
       eventListeners w = l1 ++ y :: l2 →
       Forall (λ z, ref z ≠ ref cb) l1 →
       ref y = ref cb →
       eventListeners (unsubscribe cb (addEventListener cb w))
       = l1 ++ l2 ++ [cb]).
Proof.
  split.
  - intros Hl. unfold unsubscribe, addEventListener, push, indexOf. simpl.
    rewrite indexOf_from_hit.
    + rewrite Z.add_0_l, splice_one_at. apply app_nil_r.
    + eapply Forall_impl; [exact Hl|]. intros z Hz. by apply same_false.
    + by apply same_true.
  - intros l1 y l2 Hl Hl1 Hy.
    unfold unsubscribe, addEventListener, push, indexOf. simpl.
    rewrite Hl, <- app_assoc. simpl.
    rewrite indexOf_from_hit.
    + rewrite Z.add_0_l. apply splice_one_at.
    + eapply Forall_impl; [exact Hl1|]. intros z Hz. by apply same_false.
    + by apply same_true.
Qed.

Lemma sorted_lt_NoDup (l : list nat) : StronglySorted lt l → NoDup l.
Proof.
  induction l as [|x l IH]; intros Hs; [constructor|].
  apply StronglySorted_cons in Hs as [Hx Hs].
  apply NoDup_cons. split; [|by apply IH].
  intros Hin. rewrite Forall_forall in Hx. specialize (Hx x Hin). lia.
Qed.

(** In a registry in order, unsubscribing a listener that is there removes
    that very listener. *)
Lemma unsubscribe_exact (l : list listener) (cb : listener) :
  StronglySorted lt (ref <$> l) → cb ∈ l →
  ∃ l1 l2, l = l1 ++ cb :: l2 ∧ splice l (indexOf same l cb) 1 = l1 ++ l2.
Proof.
  intros Hs Hcb.
  destruct (splice_indexOf same l cb)
    as [(l1 & y & l2 & -> & Hl1 & Hy & ->)|(Hl & _)].
  - exists l1, l2. split; [|done].
    apply same_true in Hy.
    apply elem_of_app in Hcb as [Hcb|Hcb].
    + rewrite Forall_forall in Hl1. specialize (Hl1 cb Hcb).
      by apply same_false in Hl1.
    + apply elem_of_cons in Hcb as [->|Hcb]; [done|].
      rewrite fmap_app, fmap_cons in Hs.
      apply StronglySorted_app_1_r, StronglySorted_cons in Hs as [Hs _].
      rewrite Forall_forall in Hs.
      specialize (Hs (ref cb) (list_elem_of_fmap_2 ref _ _ Hcb)). lia.
  - rewrite Forall_forall in Hl. specialize (Hl cb Hcb).
    by apply same_false in Hl.
Qed.

Lemma kept_ext (w w' : world) :
  eventListeners w' = eventListeners w →
  buttonEffects w' = buttonEffects w →
  dropdownEffects w' = dropdownEffects w →
  (toolbar w' = NotMounted → toolbar w = NotMounted) →
  subscriptions_kept w → subscriptions_kept w'.
Proof.
  intros Hl Hb Hd Ht (K1 & K2 & K3).
  unfold subscriptions_kept. rewrite Hl, Hb, Hd.
  split; [done|]. split; [done|]. intros H. by apply K3, Ht.
Qed.

Lemma kept_wiring (w w' : world) :
  wiring w w' → subscriptions_kept w → subscriptions_kept w'.
Proof.
  intros (_&_&Ht&Hl&_&Hb&Hd&_). apply kept_ext; try done. by rewrite Ht.
Qed.

Lemma kept_initial (e : Editable Core UIButton UIDropdown) :
  subscriptions_kept (initial e).
Proof.
  split; [|split].
  - intros c cb H. simpl in H. by rewrite lookup_nil in H.
  - intros c cb H. simpl in H. by rewrite lookup_nil in H.
  - done.
Qed.

Lemma elem_of_middle_ne (l1 l2 : list listener) (x y : listener) :
  x ∈ l1 ++ y :: l2 → x ≠ y → x ∈ l1 ++ l2.
Proof.
  intros Hx Hne. apply elem_of_app in Hx as [?|Hx];
    apply elem_of_app; [by left|].
  apply elem_of_cons in Hx as [?|?]; [done|by right].
Qed.

Lemma ToolbarButton_cleanup_kept (w : world) cell :
  registered w → subscriptions_kept w →
  subscriptions_kept (ToolbarButton_cleanup cell w).
Proof.
  intros (Hs&_) (K1 & K2 & K3). unfold ToolbarButton_cleanup.
  destruct (buttonEffects w !! cell) as [[cb|]|] eqn:E; [|done..].
  destruct (K1 cell cb E) as (Hcb & oa & od & Hc).
  destruct (unsubscribe_exact _ cb Hs Hcb) as (l1 & l2 & Hl & Hr).
  unfold subscriptions_kept, unsubscribe. simpl. rewrite Hr.
  split; [|split].
  - intros c cb' Hlk.
    destruct (decide (c = cell)) as [->|Hne].
    + rewrite list_lookup_insert_eq in Hlk by (by eapply lookup_lt_Some).
      done.
    + rewrite list_lookup_insert_ne in Hlk by done.
      destruct (K1 c cb' Hlk) as (Hin & oa' & od' & Hc').
      split; [|by eauto]. rewrite Hl in Hin.
      apply (elem_of_middle_ne _ _ _ _ Hin). intros ->. congruence.
  - intros c cb' Hlk.
    destruct (K2 c cb' Hlk) as (Hin & oa' & od' & Hc').
    split; [|by eauto]. rewrite Hl in Hin.
    apply (elem_of_middle_ne _ _ _ _ Hin). intros ->. congruence.
  - intros Ht. destruct (K3 Ht) as [Hb _]. by rewrite Hb in E.
Qed.

Lemma ToolbarDropdown_cleanup_kept (w : world) cell :
  registered w → subscriptions_kept w →
  subscriptions_kept (ToolbarDropdown_cleanup cell w).
Proof.
  intros (Hs&_) (K1 & K2 & K3). unfold ToolbarDropdown_cleanup.
  destruct (dropdownEffects w !! cell) as [[cb|]|] eqn:E; [|done..].
  destruct (K2 cell cb E) as (Hcb & oa & od & Hc).
  destruct (unsubscribe_exact _ cb Hs Hcb) as (l1 & l2 & Hl & Hr).
  unfold subscriptions_kept, unsubscribe. simpl. rewrite Hr.
  split; [|split].
  - intros c cb' Hlk.
    destruct (K1 c cb' Hlk) as (Hin & oa' & od' & Hc').
    split; [|by eauto]. rewrite Hl in Hin.
    apply (elem_of_middle_ne _ _ _ _ Hin). intros ->. congruence.
  - intros c cb' Hlk.
    destruct (decide (c = cell)) as [->|Hne].
    + rewrite list_lookup_insert_eq in Hlk by (by eapply lookup_lt_Some).
      done.
    + rewrite list_lookup_insert_ne in Hlk by done.
      destruct (K2 c cb' Hlk) as (Hin & oa' & od' & Hc').
      split; [|by eauto]. rewrite Hl in Hin.
      apply (elem_of_middle_ne _ _ _ _ Hin). intros ->. congruence.
  - intros Ht. destruct (K3 Ht) as [_ Hd]. by rewrite Hd in E.
Qed.

Lemma ToolbarButton_effect_kept (w : world) cell oa od :
  cell < length (buttonEffects w) →
  subscriptions_kept w →
  subscriptions_kept (ToolbarButton_effect cell oa od w).
Proof.
  intros Hlt (K1 & K2 & K3).
  unfold subscriptions_kept, ToolbarButton_effect, addEventListener, push.
  simpl. split; [|split].
  - intros c cb' Hlk. destruct (decide (c = cell)) as [->|Hne].
    + rewrite list_lookup_insert_eq in Hlk by done. injection Hlk as <-.
      split; [|by eauto]. apply elem_of_app. right. by left.
    + rewrite list_lookup_insert_ne in Hlk by done.
      destruct (K1 c cb' Hlk) as (Hin & Hc).
      split; [|done]. apply elem_of_app. by left.
  - intros c cb' Hlk. destruct (K2 c cb' Hlk) as (Hin & Hc).
    split; [|done]. apply elem_of_app. by left.
  - intros Ht. destruct (K3 Ht) as [Hb _]. rewrite Hb in Hlt.
    simpl in Hlt. lia.
Qed.

Lemma ToolbarDropdown_effect_kept (w : world) cell oa od :
  cell < length (dropdownEffects w) →
  subscriptions_kept w →
  subscriptions_kept (ToolbarDropdown_effect cell oa od w).
Proof.
  intros Hlt (K1 & K2 & K3).
  unfold subscriptions_kept, ToolbarDropdown_effect, addEventListener, push.
  simpl. split; [|split].
  - intros c cb' Hlk. destruct (K1 c cb' Hlk) as (Hin & Hc).
    split; [|done]. apply elem_of_app. by left.
  - intros c cb' Hlk. destruct (decide (c = cell)) as [->|Hne].
    + rewrite list_lookup_insert_eq in Hlk by done. injection Hlk as <-.
      split; [|by eauto]. apply elem_of_app. right. by left.
    + rewrite list_lookup_insert_ne in Hlk by done.
      destruct (K2 c cb' Hlk) as (Hin & Hc).
      split; [|done]. apply elem_of_app. by left.
  - intros Ht. destruct (K3 Ht) as [_ Hd]. rewrite Hd in Hlt.
    simpl in Hlt. lia.
Qed.
Lemma ToolbarButton_mount_kept (w : world) b :
  is_live w = true → registered w → subscriptions_kept w →
  subscriptions_kept (ToolbarButton_mount b w).
Proof.
  intros Hlive (_&_&_&Hlen&_) (K1 & K2 & K3).
  unfold ToolbarButton_mount. apply ToolbarButton_effect_kept.
  - simpl. rewrite length_app, Hlen. simpl. lia.
  - unfold subscriptions_kept. simpl. split; [|split].
    + intros c cb' Hlk. apply lookup_app_Some in Hlk as [Hlk|[_ Hlk]].
      * by apply K1.
      * destruct (c - length (buttonEffects w)) as [|n]; simpl in Hlk;
          [done|by rewrite lookup_nil in Hlk].
    + done.
    + intros Ht. unfold is_live in Hlive. by rewrite Ht in Hlive.
Qed.

Lemma ToolbarDropdown_mount_kept (w : world) d :
  is_live w = true → registered w → subscriptions_kept w →
  subscriptions_kept (ToolbarDropdown_mount d w).
Proof.
  intros Hlive (_&_&_&_&Hlen) (K1 & K2 & K3).
  unfold ToolbarDropdown_mount. apply ToolbarDropdown_effect_kept.
  - simpl. rewrite length_app, Hlen. simpl. lia.
  - unfold subscriptions_kept. simpl. split; [|split].
    + done.
    + intros c cb' Hlk. apply lookup_app_Some in Hlk as [Hlk|[_ Hlk]].
      * by apply K2.
      * destruct (c - length (dropdownEffects w)) as [|n]; simpl in Hlk;
          [done|by rewrite lookup_nil in Hlk].
    + intros Ht. unfold is_live in Hlive. by rewrite Ht in Hlive.
Qed.

Lemma kept_exec e ev (w w' : world) :
  Inv e w → subscriptions_kept w → exec ev w = Some w' →
  subscriptions_kept w'.
Proof.
  intros [Hr Hh] Hk Hex. destruct ev; simpl in Hex.
  - (* MountToolbar *)
    destruct (toolbar w) eqn:Et; [|done..]. injection Hex as <-.
    destruct Hk as (_ & _ & K3). destruct (K3 Et) as [Hb Hd].
    unfold Toolbar_mount.
    destruct (Toolbar_effect_wiring itemsProp
                (set_eventListeners [] (setItems [] w)))
      as (E1&_&E3&E4&_&_&_&E8).
    unfold subscriptions_kept. rewrite E1, E3, E4, E8. simpl.
    rewrite Hb, Hd.
    split; [|split]; try done; intros c cb H; by rewrite lookup_nil in H.
  - (* UpdateToolbar *)
    destruct (is_live w); [|done]. injection Hex as <-.
    unfold Toolbar_update.
    destruct (Toolbar_effect_wiring itemsProp (Toolbar_cleanup w))
      as (E1&_&E3&E4&_&_&_&E8).
    destruct (Toolbar_cleanup_registry w) as (C1&_&C3&C4&_).
    eapply kept_ext; [..|exact Hk]; congruence.
  - (* UnmountToolbar *)
    destruct (is_live w); [|done]. injection Hex as <-.
    unfold Toolbar_unmount.
    destruct (Toolbar_cleanup_registry w) as (C1&_&C3&C4&_).
    eapply kept_ext; [..|exact Hk]; done.
  - destruct (is_live w) eqn:El; [|done]. injection Hex as <-.
    by apply ToolbarButton_mount_kept.
  - destruct (subscribed (buttonEffects w) cell) eqn:Es; [|done].
    injection Hex as <-. unfold ToolbarButton_update.
    destruct (ToolbarButton_cleanup_registered w cell Hr) as (_ & _ & Hlen).
    apply ToolbarButton_effect_kept; [|by apply ToolbarButton_cleanup_kept].
    rewrite Hlen. unfold subscribed in Es.
    destruct (buttonEffects w !! cell) eqn:E; [|done].
    by eapply lookup_lt_Some.
  - destruct (subscribed (buttonEffects w) cell); [|done].
    injection Hex as <-. by apply ToolbarButton_cleanup_kept.
  - injection Hex as <-. unfold ToolbarButton_handleToogle.
    destruct (btn_onToggle b); [|done].
    eapply kept_wiring; [|done]. by repeat split.
  - destruct (is_live w) eqn:El; [|done]. injection Hex as <-.
    by apply ToolbarDropdown_mount_kept.
  - destruct (subscribed (dropdownEffects w) cell) eqn:Es; [|done].
    injection Hex as <-. unfold ToolbarDropdown_update.
    destruct (ToolbarDropdown_cleanup_registered w cell Hr) as (_ & _ & Hlen).
    apply ToolbarDropdown_effect_kept; [|by apply ToolbarDropdown_cleanup_kept].
    rewrite Hlen. unfold subscribed in Es.
    destruct (dropdownEffects w !! cell) eqn:E; [|done].
    by eapply lookup_lt_Some.
  - destruct (subscribed (dropdownEffects w) cell); [|done].
    injection Hex as <-. by apply ToolbarDropdown_cleanup_kept.
  - injection Hex as <-. unfold ToolbarDropdown_handleToogle.
    destruct (dd_onToggle d); [|done].
    eapply kept_wiring; [|done]. by repeat split.
  - injection Hex as <-. eapply kept_wiring; [|done].
    apply call_onSelectionChange_wiring.
  - injection Hex as <-. eapply kept_wiring; [|done]. by repeat split.
Qed.

Lemma kept_run e evs (w w' : world) :
  Inv e w → subscriptions_kept w → run evs w = Some w' →
  subscriptions_kept w'.
Proof.
  revert w. induction evs as [|ev evs IH]; intros w Hi Hk Hrun;
    simpl in Hrun.
  - by injection Hrun as <-.
  - destruct (exec ev w) as [w1|] eqn:E; [|done].
    eapply (IH w1); [by eapply Inv_exec|by eapply kept_exec|done].
Qed.

Lemma reachable_kept (w : world) :
  reachable w → subscriptions_kept w ∧ ∃ e, Inv e w.
Proof.
  intros (e & evs & Hrun). split.
  - eapply kept_run; [apply Inv_initial|apply kept_initial|done].
  - exists e. eapply Inv_run; [apply Inv_initial|done].
Qed.

(** X3: in every run of the component tree the registry holds each
    listener once, and holds exactly the listeners of the mounted items:
    no subscription is lost and none is left behind. *)
Theorem registry_is_mounted_items (w : world) :
  reachable w →
  NoDup (eventListeners w)
  ∧ ∀ cb, cb ∈ eventListeners w ↔
          (∃ cell, buttonEffects w !! cell = Some (Some cb))
          ∨ (∃ cell, dropdownEffects w !! cell = Some (Some cb)).
Proof.
  intros Hre.
  destruct (reachable_kept w Hre) as [(K1 & K2 & _) [e [(Hs&_&Ho&_) _]]].
  split.
  - apply (NoDup_fmap_1 ref). by apply sorted_lt_NoDup.
  - intros cb. split.
    + intros Hcb. rewrite Forall_forall in Ho. specialize (Ho cb Hcb).
      unfold owned in Ho. destruct (code cb); [left|right]; by eexists.
    + intros [[c Hc]|[c Hc]]; [by apply (K1 c)|by apply (K2 c)].
Qed.

(** X4: in every run of the component tree the cleanup of a mounted button
    or dropdown removes its own listener from the registry and keeps the
    others in their order: the [-1] of [indexOf] does not occur. *)
Theorem cleanup_removes_own_listener (w : world) :
  reachable w →
  (∀ cell cb,
     buttonEffects w !! cell = Some (Some cb) →
     ∃ l1 l2,
       eventListeners w = l1 ++ cb :: l2
       ∧ eventListeners (ToolbarButton_cleanup cell w) = l1 ++ l2
       ∧ cb ∉ l1 ++ l2)
  ∧ (∀ cell cb,
       dropdownEffects w !! cell = Some (Some cb) →
       ∃ l1 l2,
         eventListeners w = l1 ++ cb :: l2
         ∧ eventListeners (ToolbarDropdown_cleanup cell w) = l1 ++ l2
         ∧ cb ∉ l1 ++ l2).
Proof.
  intros Hre.
  destruct (reachable_kept w Hre) as [(K1 & K2 & _) [e [(Hs&_) _]]].
  assert (NoDup (eventListeners w)) as Hnd
    by (apply (NoDup_fmap_1 ref); by apply sorted_lt_NoDup).
  assert (∀ l1 l2 (cb : listener),
            eventListeners w = l1 ++ cb :: l2 → cb ∉ l1 ++ l2) as Hout.
  { intros l1 l2 cb Hl. rewrite Hl in Hnd.
    apply NoDup_app in Hnd as (_ & H1 & H2).
    apply NoDup_cons in H2 as [H2 _].
    intros Hin. apply elem_of_app in Hin as [Hin|Hin]; [|done].
    apply (H1 cb Hin). by left. }
  split.
  - intros cell cb E. destruct (K1 cell cb E) as (Hcb & _).
    destruct (unsubscribe_exact _ cb Hs Hcb) as (l1 & l2 & Hl & Hr).
    exists l1, l2. split; [done|]. split; [|by apply Hout].
    unfold ToolbarButton_cleanup. rewrite E. simpl. done.
  - intros cell cb E. destruct (K2 cell cb E) as (Hcb & _).
    destruct (unsubscribe_exact _ cb Hs Hcb) as (l1 & l2 & Hl & Hr).
    exists l1, l2. split; [done|]. split; [|by apply Hout].
    unfold ToolbarDropdown_cleanup. rewrite E. simpl. done.
Qed.
End Subscriptions.

(** ** More on notifications, updates and the error path *)

Section Refresh.
Context {Core UIButton UIDropdown : Type}.
Local Abbreviation world := (World Core UIButton UIDropdown).
Local Abbreviation listener := (EditorChangeHandler Core).
Local Abbreviation editable := (Editable Core UIButton UIDropdown).
Local Abbreviation handler := (SelectionHandler Core UIButton UIDropdown).

(** X5: in a run of the component tree, after a notification on a mounted
    Toolbar whose editor has [onToolbar], the state cells of every mounted
    button and dropdown hold what the callbacks captured by its current
    effect return on the editor, or the defaults where a callback is
    absent. *)
Theorem mounted_items_follow_editor (w : world) :
  reachable w → is_live w = true → is_Some (onToolbar (editor w)) →
  ∃ w', notify w = Returned w'
    ∧ (∀ cell cb,
         buttonEffects w !! cell = Some (Some cb) →
         ∃ oa od,
           code cb = ButtonOnChange cell oa od
           ∧ buttonStates w' !! cell
             = Some {| active := match oa with
                                 | Some f => f (core (editor w'))
                                 | None => false
                                 end;
                       disabled := match od with
                                   | Some f => f (core (editor w'))
                                   | None => false
                                   end |})
    ∧ (∀ cell cb,
         dropdownEffects w !! cell = Some (Some cb) →
         ∃ oa od,
           code cb = DropdownOnChange cell oa od
           ∧ dropdownStates w' !! cell
             = Some {| value := match oa with
                                | Some f => Some (f (core (editor w')))
                                | None => None
                                end;
                       dd_disabled := match od with
                                      | Some f => f (core (editor w'))
                                      | None => false
                                      end |}).
Proof.
  intros Hre Hlive Hon.
  destruct (reachable_kept w Hre) as [(K1 & K2 & _) [e Hi]].
  destruct (call_onSelectionChange_total ThisEditor
              (onSelectionChange (editor w)) w Hon)
    as [w' Hn].
  exists w'. split; [done|]. split.
  - intros cell cb E. destruct (K1 cell cb E) as (Hcb & oa & od & Hc).
    exists oa, od. split; [done|]. by eapply notify_button.
  - intros cell cb E. destruct (K2 cell cb E) as (Hcb & oa & od & Hc).
    exists oa, od. split; [done|]. by eapply notify_dropdown.
Qed.

Lemma Toolbar_cleanup_items (w : world) :
  items (Toolbar_cleanup w) = items w ∧ calls (Toolbar_cleanup w) = calls w.
Proof. unfold Toolbar_cleanup. by destruct (toolbar w). Qed.

Lemma Toolbar_effect_items ip (w : world) :
  items (Toolbar_effect ip w) = items w.
Proof. unfold Toolbar_effect. simpl. by rewrite dispatch_items. Qed.

Lemma ToolbarButton_cleanup_items (w : world) cell :
  items (ToolbarButton_cleanup cell w) = items w.
Proof.
  unfold ToolbarButton_cleanup.
  by destruct (buttonEffects w !! cell) as [[cb|]|].
Qed.

Lemma ToolbarDropdown_cleanup_items (w : world) cell :
  items (ToolbarDropdown_cleanup cell w) = items w.
Proof.
  unfold ToolbarDropdown_cleanup.
  by destruct (dropdownEffects w !! cell) as [[cb|]|].
Qed.

(** X6: in a run of the component tree, the effect that follows a changed
    [items] prop calls every registered listener at once, so the cells of
    the registered items are recomputed on the editor as it is, without a
    selection change; the items rendered stay those of before. *)
Theorem Toolbar_update_refreshes_state ip (w : world) :
  reachable w →
  items (Toolbar_update ip w) = items w
  ∧ core (editor (Toolbar_update ip w)) = core (editor w)
  ∧ calls (Toolbar_update ip w)
    = calls w ++ invocations (eventListeners w) (core (editor w))
  ∧ (∀ cb cell oa od,
       cb ∈ eventListeners w →
       code cb = ButtonOnChange cell oa od →
       buttonStates (Toolbar_update ip w) !! cell
       = Some {| active := match oa with
                           | Some f => f (core (editor w))
                           | None => false
                           end;
                 disabled := match od with
                             | Some f => f (core (editor w))
                             | None => false
                             end |})
  ∧ (∀ cb cell oa od,
       cb ∈ eventListeners w →
       code cb = DropdownOnChange cell oa od →
       dropdownStates (Toolbar_update ip w) !! cell
       = Some {| value := match oa with
                          | Some f => Some (f (core (editor w)))
                          | None => None
                          end;
                 dd_disabled := match od with
                                | Some f => f (core (editor w))
                                | None => false
                                end |}).
Proof.
  intros Hre. destruct (reachable_Inv w Hre) as [e [Hr _]].
  destruct (Toolbar_cleanup_registry w) as (C1&C2&C3&C4&C5&C6&C7&C8&C9).
  destruct (Toolbar_cleanup_items w) as [Ci Cc].
  unfold Toolbar_update.
  split; [by rewrite Toolbar_effect_items|].
  destruct (Toolbar_effect_wiring ip (Toolbar_cleanup w))
    as (_&_&_&_&_&_&E7&_).
  split; [by rewrite E7|].
  unfold Toolbar_effect. simpl.
  set (w1 := set_onSelectionChange
               (ToolbarHandler (onSelectionChange (editor (Toolbar_cleanup w)))
                  ip) (Toolbar_cleanup w)).
  assert (eventListeners w1 = eventListeners w) as Hl by done.
  assert (core (editor w1) = core (editor w)) as Hc by done.
  assert (registered w1) as Hr1.
  { eapply registered_ext; [..|exact Hr]; simpl; congruence. }
  split; [|split].
  - rewrite dispatch_calls, Hl, Hc. by rewrite <- Cc.
  - intros cb cell oa od Hcb Hcode. rewrite <- Hl in Hcb.
    apply list_elem_of_split in Hcb as (l1 & l2 & Hsplit).
    destruct (owner_last_button w1 l1 l2 cb cell oa od Hr1 Hsplit Hcode)
      as [Hfree Hlt].
    rewrite dispatch_call_all, Hsplit, <- Hc. by apply call_all_button.
  - intros cb cell oa od Hcb Hcode. rewrite <- Hl in Hcb.
    apply list_elem_of_split in Hcb as (l1 & l2 & Hsplit).
    destruct (owner_last_dropdown w1 l1 l2 cb cell oa od Hr1 Hsplit Hcode)
      as [Hfree Hlt].
    rewrite dispatch_call_all, Hsplit, <- Hc. by apply call_all_dropdown.
Qed.

(** X7: in a run of the component tree from an editor with a host handler,
    the effects never wrap their own wrapper: while the Toolbar is mounted
    the hook is the wrapper of the host handler itself, otherwise it is the
    host handler; so a notification applies the host handler to the editor
    exactly once, whether it then returns or throws. *)
Theorem host_handler_runs_once (e : editable) f evs (w : world) :
  onSelectionChange e = HostHandler f →
  run evs (initial e) = Some w →
  core (editor (state_of (notify w))) = f (core (editor w))
  ∧ (is_live w = true →
     ∃ ip, onSelectionChange (editor w) = ToolbarHandler (HostHandler f) ip)
  ∧ (is_live w = false → onSelectionChange (editor w) = HostHandler f).
Proof.
  intros He Hrun.
  destruct (Inv_run e evs _ _ (Inv_initial e) Hrun) as [_ [_ Hh]].
  unfold notify, is_live.
  destruct (toolbar w) as [|h|].
  - rewrite Hh, He. by repeat split.
  - destruct Hh as (-> & ip & Hw). rewrite Hw, He. simpl.
    split; [|split; [by eexists|done]].
    destruct (onToolbar (editor (dispatch (set_core (f (core (editor w))) w))));
      simpl; by rewrite dispatch_editor.
  - rewrite Hh, He. by repeat split.
Qed.

(** Without [onToolbar] a call of the hook leaves the items as they are, and
    a call of the Toolbar's wrapper throws. *)
Lemma call_without_onToolbar this (h : handler) (w : world) :
  onToolbar (editor w) = None →
  items (state_of (call_onSelectionChange this h w)) = items w
  ∧ ∀ h' ip, h = ToolbarHandler h' ip →
             ∃ w', call_onSelectionChange this h w = Threw w'.
Proof.
  intros Hon. revert this. induction h as [f|f|h IH ip]; intros this; simpl.
  - split; [done|]. by intros h' ip.
  - split; [by destruct this|]. by intros h' ip.
  - destruct (IH ThisUndefined) as [IH' _].
    destruct (call_onSelectionChange ThisUndefined h w) as [w1|w1] eqn:E;
      simpl in *.
    + destruct (Returned_wiring _ _ _ E) as (_&Ho&_).
      rewrite dispatch_editor, Ho, Hon. simpl.
      rewrite dispatch_items. split; [done|]. intros _ _ _. by eexists.
    + split; [done|]. intros _ _ _. by eexists.
Qed.

Lemma exec_without_onToolbar e ev (w w' : world) :
  onToolbar e = None → Inv e w → items w = [] → exec ev w = Some w' →
  items w' = [].
Proof.
  intros He [_ [Ho _]] H0 E. rewrite He in Ho.
  destruct ev; simpl in E.
  - destruct (toolbar w); [|done..]. injection E as <-.
    apply Toolbar_mount_editor.
  - destruct (is_live w); [|done]. injection E as <-.
    unfold Toolbar_update.
    by rewrite Toolbar_effect_items, (proj1 (Toolbar_cleanup_items w)).
  - destruct (is_live w); [|done]. injection E as <-.
    unfold Toolbar_unmount. simpl.
    by rewrite (proj1 (Toolbar_cleanup_items w)).
  - destruct (is_live w); [|done]. by injection E as <-.
  - destruct (subscribed (buttonEffects w) cell); [|done].
    injection E as <-. unfold ToolbarButton_update, ToolbarButton_effect.
    simpl. by rewrite ToolbarButton_cleanup_items.
  - destruct (subscribed (buttonEffects w) cell); [|done].
    injection E as <-. by rewrite ToolbarButton_cleanup_items.
  - injection E as <-. unfold ToolbarButton_handleToogle.
    by destruct (btn_onToggle b).
  - destruct (is_live w); [|done]. by injection E as <-.
  - destruct (subscribed (dropdownEffects w) cell); [|done].
    injection E as <-.
    unfold ToolbarDropdown_update, ToolbarDropdown_effect.
    simpl. by rewrite ToolbarDropdown_cleanup_items.
  - destruct (subscribed (dropdownEffects w) cell); [|done].
    injection E as <-. by rewrite ToolbarDropdown_cleanup_items.
  - injection E as <-. unfold ToolbarDropdown_handleToogle.
    by destruct (dd_onToggle d).
  - injection E as <-. unfold notify.
    by rewrite (proj1 (call_without_onToolbar _ _ w Ho)).
  - by injection E as <-.
Qed.

Lemma run_without_onToolbar e evs (w w' : world) :
  onToolbar e = None → Inv e w → items w = [] → run evs w = Some w' →
  items w' = [].
Proof.
  intros He. revert w.
  induction evs as [|ev evs IH]; intros w Hi H0 Hrun; simpl in Hrun.
  - by injection Hrun as <-.
  - destruct (exec ev w) as [w1|] eqn:E; [|done].
    apply (IH w1); [by eapply Inv_exec| |done].
    by eapply exec_without_onToolbar.
Qed.

(** X8: with an editor that [withToolbar] did not extend, so that
    [onToolbar] is absent, every run of the component tree leaves the
    Toolbar without any item to render, and every notification on the
    mounted Toolbar throws. *)
Theorem without_onToolbar_no_items (e : editable) evs (w : world) :
  onToolbar e = None →
  run evs (initial e) = Some w →
  items w = [] ∧ Toolbar_children w = []
  ∧ (is_live w = true → ∃ w', notify w = Threw w' ∧ items w' = []).
Proof.
  intros He Hrun.
  assert (items w = []) as Hitems
    by (by eapply run_without_onToolbar; [|apply Inv_initial| |]).
  split; [done|]. split; [unfold Toolbar_children; by rewrite Hitems|].
  intros Hlive.
  destruct (Inv_run e evs _ _ (Inv_initial e) Hrun) as [_ [Ho Hh]].
  rewrite He in Ho. unfold is_live in Hlive.
  destruct (toolbar w) as [|h|]; [done| |done].
  destruct Hh as (_ & ip & Hw).
  destruct (call_without_onToolbar ThisEditor (onSelectionChange (editor w))
              w Ho)
    as [Hi Ht].
  destruct (Ht h ip Hw) as [w' Hn].
  exists w'. split; [done|].
  unfold notify in *. rewrite Hn in Hi. simpl in Hi. congruence.
Qed.
End Refresh.

(** ** A second dispatch changes nothing *)

Section Stable.
Context {Core UIButton UIDropdown : Type}.
Local Abbreviation world := (World Core UIButton UIDropdown).
Local Abbreviation listener := (EditorChangeHandler Core).

Lemma button_target (l : list listener) cell :
  Forall (λ z, ∀ oa od, code z ≠ ButtonOnChange cell oa od) l
  ∨ ∃ cb oa od, cb ∈ l ∧ code cb = ButtonOnChange cell oa od.
Proof.
  induction l as [|z l [IH|(cb & oa & od & Hin & Hc)]].
  - left. constructor.
  - destruct (code z) as [c oa od|c oa od] eqn:Ez.
    + destruct (decide (c = cell)) as [->|Hne].
      * right. exists z, oa, od. split; [by left|done].
      * left. constructor; [|done]. rewrite Ez. congruence.
    + left. constructor; [|done]. by rewrite Ez.
  - right. exists cb, oa, od. split; [by right|done].
Qed.

Lemma dropdown_target (l : list listener) cell :
  Forall (λ z, ∀ oa od, code z ≠ DropdownOnChange cell oa od) l
  ∨ ∃ cb oa od, cb ∈ l ∧ code cb = DropdownOnChange cell oa od.
Proof.
  induction l as [|z l [IH|(cb & oa & od & Hin & Hc)]].
  - left. constructor.
  - destruct (code z) as [c oa od|c oa od] eqn:Ez.
    + left. constructor; [|done]. by rewrite Ez.
    + destruct (decide (c = cell)) as [->|Hne].
      * right. exists z, oa, od. split; [by left|done].
      * left. constructor; [|done]. rewrite Ez. congruence.
  - right. exists cb, oa, od. split; [by right|done].
Qed.

Lemma dispatch_button (w : world) cb cell oa od :
  registered w → cb ∈ eventListeners w →
  code cb = ButtonOnChange cell oa od →
  buttonStates (dispatch w) !! cell
  = Some {| active := match oa with
                      | Some f => f (core (editor w))
                      | None => false
                      end;
            disabled := match od with
                        | Some f => f (core (editor w))
                        | None => false
                        end |}.
Proof.
  intros Hr Hcb Hc.
  apply list_elem_of_split in Hcb as (l1 & l2 & Hsplit).
  destruct (owner_last_button w l1 l2 cb cell oa od Hr Hsplit Hc)
    as [Hfree Hlt].
  rewrite dispatch_call_all, Hsplit. by apply call_all_button.
Qed.

Lemma dispatch_dropdown (w : world) cb cell oa od :
  registered w → cb ∈ eventListeners w →
  code cb = DropdownOnChange cell oa od →
  dropdownStates (dispatch w) !! cell
  = Some {| value := match oa with
                     | Some f => Some (f (core (editor w)))
                     | None => None
                     end;
            dd_disabled := match od with
                           | Some f => f (core (editor w))
                           | None => false
                           end |}.
Proof.
  intros Hr Hcb Hc.
  apply list_elem_of_split in Hcb as (l1 & l2 & Hsplit).
  destruct (owner_last_dropdown w l1 l2 cb cell oa od Hr Hsplit Hc)
    as [Hfree Hlt].
  rewrite dispatch_call_all, Hsplit. by apply call_all_dropdown.
Qed.

(** X9: in a run of the component tree, dispatching twice in a row leaves
    the state cells of all buttons and dropdowns as one dispatch does: with
    the editor unchanged, calling the listeners again recomputes the same
    values. *)
Theorem dispatch_twice (w : world) :
  reachable w →
  buttonStates (dispatch (dispatch w)) = buttonStates (dispatch w)
  ∧ dropdownStates (dispatch (dispatch w)) = dropdownStates (dispatch w).
Proof.
  intros Hre. destruct (reachable_Inv w Hre) as [e [Hr _]].
  pose proof (dispatch_wiring w) as Hw.
  pose proof (registered_wiring _ _ Hw Hr) as Hr2.
  destruct Hw as (_&_&_&Hl&_).
  pose proof (dispatch_editor w) as He.
  split; apply list_eq; intros cell.
  - destruct (button_target (eventListeners w) cell)
      as [Hfree|(cb & oa & od & Hcb & Hc)].
    + rewrite (dispatch_call_all (dispatch w)), Hl.
      by apply call_all_button_other.
    + rewrite (dispatch_button (dispatch w) cb cell oa od)
        by (by rewrite ?Hl).
      rewrite (dispatch_button w cb cell oa od) by done.
      by rewrite He.
  - destruct (dropdown_target (eventListeners w) cell)
      as [Hfree|(cb & oa & od & Hcb & Hc)].
    + rewrite (dispatch_call_all (dispatch w)), Hl.
      by apply call_all_dropdown_other.
    + rewrite (dispatch_dropdown (dispatch w) cb cell oa od)
        by (by rewrite ?Hl).
      rewrite (dispatch_dropdown w cb cell oa od) by done.
      by rewrite He.
Qed.
End Stable.

(** ** More on [withToolbar] *)

Section Options.
Context {Core UIButton UIDropdown : Type}.
Local Abbreviation store := (Store Core UIButton UIDropdown).
Local Abbreviation options := (Toolbar Core UIButton UIDropdown).

Lemma withToolbar_all_app (l1 l2 : list (nat * option options)) (s : store) :
  withToolbar_all (l1 ++ l2) s = withToolbar_all l2 (withToolbar_all l1 s).
Proof.
  revert s. induction l1 as [|[e o] l1 IH]; intros s; [done|].
  simpl. apply IH.
Qed.

Lemma withToolbar_all_getOptions_ne (l : list (nat * option options))
    (s : store) e :
  e ∉ l.*1 →
  ToolbarEditor_getOptions e (withToolbar_all l s)
  = ToolbarEditor_getOptions e s.
Proof.
  revert s. induction l as [|[e' o] l IH]; intros s Hl; [done|].
  change (withToolbar_all ((e', o) :: l) s)
    with (withToolbar_all l (withToolbar e' o s).2).
  rewrite IH.
  - apply withToolbar_getOptions_ne. intros ->. apply Hl. simpl. by left.
  - intros Hin. apply Hl. simpl. by right.
Qed.

(** X10: in any sequence of calls of [withToolbar], on any store, the last
    call that received an editor decides what [getOptions] returns for it:
    the options of that call, or the empty options when it omitted them. *)
Theorem getOptions_last_call (l l' : list (nat * option options))
    (s : store) e o :
  e ∉ l'.*1 →
  ToolbarEditor_getOptions e (withToolbar_all (l ++ (e, o) :: l') s)
  = default {| tb_items := None |} o.
Proof.
  intros Hl'. rewrite withToolbar_all_app.
  change (withToolbar_all ((e, o) :: l') (withToolbar_all l s))
    with (withToolbar_all l' (withToolbar e o (withToolbar_all l s)).2).
  rewrite withToolbar_all_getOptions_ne by done.
  apply withToolbar_getOptions.
Qed.

(** X11: a second call of [withToolbar] on the same editor overrides the
    first: the store is the one the second call alone would give; in
    particular the call is idempotent. *)
Theorem withToolbar_overrides e (o1 o2 : option options) (s : store) :
  (withToolbar e o2 (withToolbar e o1 s).2).2 = (withToolbar e o2 s).2
  ∧ (withToolbar e o2 (withToolbar e o2 s).2).2 = (withToolbar e o2 s).2.
Proof.
  assert (∀ o o' : option options,
            (withToolbar e o' (withToolbar e o s).2).2 = (withToolbar e o' s).2)
    as H; [|by split].
  intros o o'. unfold withToolbar. simpl. f_equal.
  - rewrite alter_alter_eq. apply map_eq. intros i.
    rewrite !lookup_alter. case_decide; [|done].
    by destruct (heap s !! e).
  - apply insert_insert_eq.
Qed.

Lemma withToolbar_heap_is_Some e e' (o : option options) (s : store) :
  is_Some (heap (withToolbar e' o s).2 !! e) ↔ is_Some (heap s !! e).
Proof.
  unfold withToolbar. simpl. rewrite lookup_alter.
  case_decide as Hd; [|done]. subst e'. by rewrite fmap_is_Some.
Qed.

Lemma isToolbarEditor_is_Some e (s : store) :
  ToolbarEditor_isToolbarEditor e s = true → is_Some (heap s !! e).
Proof.
  unfold ToolbarEditor_isToolbarEditor.
  destruct (heap s !! e); [by eexists|done].
Qed.

Lemma withToolbar_isToolbarEditor e e' (o : option options) (s : store) :
  ToolbarEditor_isToolbarEditor e (withToolbar e' o s).2 = true ↔
  (e = e' ∧ is_Some (heap s !! e)) ∨ ToolbarEditor_isToolbarEditor e s = true.
Proof.
  unfold ToolbarEditor_isToolbarEditor, withToolbar. simpl.
  rewrite lookup_alter. case_decide as Hd.
  - subst e'. destruct (heap s !! e) as [ed|]; simpl.
    + split; [intros _; left; split; [done|by eexists]|done].
    + split; [done|]. intros [[_ [? ?]]|?]; done.
  - split; [by right|]. intros [[-> _]|?]; done.
Qed.

(** X12: after any sequence of calls of [withToolbar], an editor is a
    [ToolbarEditor] exactly when it is an object of the store that one of
    the calls received, or it was a [ToolbarEditor] before: the calls make
    no other editor one, and undo none. *)
Theorem isToolbarEditor_after_calls (l : list (nat * option options))
    (s : store) e :
  ToolbarEditor_isToolbarEditor e (withToolbar_all l s) = true ↔
  (e ∈ l.*1 ∧ is_Some (heap s !! e))
  ∨ ToolbarEditor_isToolbarEditor e s = true.
Proof.
  revert s. induction l as [|[e' o] l IH]; intros s.
  - simpl. split; [by right|]. intros [[H _]|?]; [|done].
    by apply elem_of_nil in H.
  - change (withToolbar_all ((e', o) :: l) s)
      with (withToolbar_all l (withToolbar e' o s).2).
    rewrite IH, withToolbar_heap_is_Some, withToolbar_isToolbarEditor.
    simpl. rewrite elem_of_cons. split.
    + intros [[H1 H2]|[[-> H2]|H]].
      * left. split; [by right|done].
      * left. split; [by left|done].
      * by right.
    + intros [[[->|H1] H2]|H].
      * right. left. done.
      * left. done.
      * right. by right.
Qed.
End Options.

(** ** The further properties on the sample configurations *)

Lemma two_buttons_listeners :
  eventListeners two_buttons = [bold_onChange; plain_onChange].
Proof. vm_compute. reflexivity. Qed.

(** X1 on two mounted buttons: the callback of the second removes the
    second, and a callback that was never registered removes the second
    too, the last of the registry. *)
Lemma unsubscribe_removes_one_sample :
  eventListeners two_buttons = [bold_onChange] ++ plain_onChange :: []
  ∧ Forall (λ z, ref z ≠ ref plain_onChange) [bold_onChange]
  ∧ eventListeners (unsubscribe plain_onChange two_buttons) = [bold_onChange]
  ∧ eventListeners two_buttons = [bold_onChange] ++ [plain_onChange]
  ∧ Forall (λ z, ref z ≠ ref stray_onChange)
      ([bold_onChange] ++ [plain_onChange])
  ∧ eventListeners (unsubscribe stray_onChange two_buttons) = [bold_onChange]
  ∧ length (eventListeners (unsubscribe stray_onChange two_buttons)) = 1.
Proof.
  assert (Forall (λ z : EditorChangeHandler nat, ref z ≠ ref plain_onChange)
            [bold_onChange]) as H1 by (repeat constructor; simpl; lia).
  assert (Forall (λ z : EditorChangeHandler nat, ref z ≠ ref stray_onChange)
            ([bold_onChange] ++ [plain_onChange])) as H2
    by (repeat constructor; simpl; lia).
  destruct (unsubscribe_removes_one two_buttons plain_onChange)
    as (Hfirst & _).
  destruct (unsubscribe_removes_one two_buttons stray_onChange)
    as (_ & Hlast & _ & Hlen & _).
  split; [exact two_buttons_listeners|]. split; [exact H1|].
  split; [exact (Hfirst [bold_onChange] plain_onChange []
                  two_buttons_listeners H1 eq_refl)|].
  split; [exact two_buttons_listeners|]. split; [exact H2|].
  split; [exact (Hlast [bold_onChange] plain_onChange
                  two_buttons_listeners H2)|].
  rewrite Hlen, two_buttons_listeners. reflexivity.
Defined.

(** X2 on two mounted buttons and a callback with a new reference. *)
Lemma subscribe_then_unsubscribe_sample :
  Forall (λ z, ref z ≠ ref stray_onChange) (eventListeners two_buttons)
  ∧ eventListeners
      (unsubscribe stray_onChange (addEventListener stray_onChange two_buttons))
    = [bold_onChange; plain_onChange].
Proof.
  assert (Forall (λ z : EditorChangeHandler nat, ref z ≠ ref stray_onChange)
            (eventListeners two_buttons)) as H.
  { rewrite two_buttons_listeners. repeat constructor; simpl; lia. }
  split; [exact H|].
  rewrite (proj1 (subscribe_then_unsubscribe two_buttons stray_onChange) H).
  apply two_buttons_listeners.
Defined.

(** X3 on the sample Toolbar. *)
Lemma registry_is_mounted_items_sample :
  reachable sample_world
  ∧ NoDup (eventListeners sample_world)
  ∧ (buttonEffects sample_world !! 0 = Some (Some bold_onChange)
     → bold_onChange ∈ eventListeners sample_world).
Proof.
  destruct (registry_is_mounted_items sample_world sample_world_reachable)
    as [H1 H2].
  split; [exact sample_world_reachable|]. split; [exact H1|].
  intros H. apply H2. left. by exists 0.
Defined.

(** X4 on two mounted buttons: the cleanup of the first. *)
Lemma cleanup_removes_own_listener_sample :
  reachable two_buttons
  ∧ buttonEffects two_buttons !! 0 = Some (Some bold_onChange)
  ∧ ∃ l1 l2,
      eventListeners two_buttons = l1 ++ bold_onChange :: l2
      ∧ eventListeners (ToolbarButton_cleanup 0 two_buttons) = l1 ++ l2
      ∧ bold_onChange ∉ l1 ++ l2.
Proof.
  assert (buttonEffects two_buttons !! 0 = Some (Some bold_onChange)) as H
    by (vm_compute; reflexivity).
  split; [exact two_buttons_reachable|]. split; [exact H|].
  exact (proj1 (cleanup_removes_own_listener two_buttons two_buttons_reachable)
           0 bold_onChange H).
Defined.

(** X5 on the sample Toolbar: the first mounted button. *)
Lemma mounted_items_follow_editor_sample :
  is_live sample_world = true
  ∧ is_Some (onToolbar (editor sample_world))
  ∧ buttonEffects sample_world !! 0 = Some (Some bold_onChange)
  ∧ ∃ w', notify sample_world = Returned w'
      ∧ ∃ oa od,
          code bold_onChange = ButtonOnChange 0 oa od
          ∧ buttonStates w' !! 0
            = Some {| active := match oa with
                                | Some f => f (core (editor w'))
                                | None => false
                                end;
                      disabled := match od with
                                  | Some f => f (core (editor w'))
                                  | None => false
                                  end |}.
Proof.
  assert (is_live sample_world = true) as H1 by (vm_compute; reflexivity).
  assert (is_Some (onToolbar (editor sample_world))) as H2 by (by eexists).
  assert (buttonEffects sample_world !! 0 = Some (Some bold_onChange)) as H3
    by (vm_compute; reflexivity).
  split; [exact H1|]. split; [exact H2|]. split; [exact H3|].
  destruct (mounted_items_follow_editor sample_world
              sample_world_reachable H1 H2) as (w' & Hn & Hb & _).
  exists w'. split; [exact Hn|]. exact (Hb 0 bold_onChange H3).
Defined.

(** X6 on the sample Toolbar: an update to no [items] prop. *)
Lemma Toolbar_update_refreshes_state_sample :
  reachable sample_world
  ∧ items (Toolbar_update None sample_world) = items sample_world
  ∧ calls (Toolbar_update None sample_world)
    = calls sample_world
      ++ invocations (eventListeners sample_world) (core (editor sample_world)).
Proof.
  destruct (Toolbar_update_refreshes_state None sample_world
              sample_world_reachable) as (H1 & _ & H3 & _).
  split; [exact sample_world_reachable|]. split; [exact H1|exact H3].
Defined.

(** X7 on the sample Toolbar: the host handler [S] is applied once. *)
Lemma host_handler_runs_once_sample :
  onSelectionChange sample_editor = HostHandler S
  ∧ run sample_events (initial sample_editor) = Some sample_world
  ∧ core (editor (state_of (notify sample_world)))
    = S (core (editor sample_world)).
Proof.
  assert (run sample_events (initial sample_editor) = Some sample_world)
    as H by (vm_compute; reflexivity).
  split; [reflexivity|]. split; [exact H|].
  exact (proj1 (host_handler_runs_once sample_editor S sample_events
                  sample_world eq_refl H)).
Defined.

(** X8 on a Toolbar over an editor without [onToolbar]. *)
Lemma without_onToolbar_no_items_sample :
  onToolbar bare_editor = None
  ∧ run bare_events (initial bare_editor) = Some bare_world
  ∧ is_live bare_world = true
  ∧ items bare_world = []
  ∧ ∃ w', notify bare_world = Threw w' ∧ items w' = [].
Proof.
  assert (run bare_events (initial bare_editor) = Some bare_world) as H
    by (vm_compute; reflexivity).
  assert (is_live bare_world = true) as Hl by (vm_compute; reflexivity).
  destruct (without_onToolbar_no_items bare_editor bare_events bare_world
              eq_refl H) as (H1 & _ & H3).
  split; [reflexivity|]. split; [exact H|]. split; [exact Hl|].
  split; [exact H1|exact (H3 Hl)].
Defined.

(** X9 on the sample Toolbar. *)
Lemma dispatch_twice_sample :
  reachable sample_world
  ∧ buttonStates (dispatch (dispatch sample_world))
    = buttonStates (dispatch sample_world).
Proof.
  split; [exact sample_world_reachable|].
  exact (proj1 (dispatch_twice sample_world sample_world_reachable)).
Defined.

(** X10 on the sample store: two calls for editor 1, one for editor 2. *)
Lemma getOptions_last_call_sample :
  (1 ∉ fst <$> [(2, Some sample_options)])
  ∧ ToolbarEditor_getOptions 1
      (withToolbar_all
         ([(1, Some sample_options)] ++ (1, None) :: [(2, Some sample_options)])
         sample_store)
    = {| tb_items := None |}.
Proof.
  assert (1 ∉ fst <$> [(2, Some sample_options)]) as H.
  { simpl. intros H. apply list_elem_of_singleton in H. lia. }
  split; [exact H|].
  exact (getOptions_last_call [(1, Some sample_options)]
           [(2, Some sample_options)] sample_store 1 None H).
Defined.

(** X12 on the sample store: editor 1 after a call that received it. *)
Lemma isToolbarEditor_after_calls_sample :
  (1 ∈ fst <$> [(1, @None (Toolbar nat string (list string)))])
  ∧ is_Some (heap sample_store !! 1)
  ∧ ToolbarEditor_isToolbarEditor 1 (withToolbar_all [(1, None)] sample_store)
    = true.
Proof.
  assert (1 ∈ fst <$> [(1, @None (Toolbar nat string (list string)))]) as H1
    by (simpl; by left).
  assert (is_Some (heap sample_store !! 1)) as H2
    by (simpl; rewrite lookup_insert_eq; by eexists).
  split; [exact H1|]. split; [exact H2|].
  apply (proj2 (isToolbarEditor_after_calls [(1, None)] sample_store 1)).
  left. split; [exact H1|exact H2].
Defined.

(** ** What does not reach the Toolbar *)

Section Silent.
Context {Core UIButton UIDropdown : Type}.
Local Abbreviation world := (World Core UIButton UIDropdown).
Local Abbreviation editable := (Editable Core UIButton UIDropdown).
Local Abbreviation event := (Event Core UIButton UIDropdown).

(** X13: in a run of the component tree from an editor with a host handler,
    once the Toolbar is unmounted (and before it is mounted) a selection
    change is the host handler alone: no listener is called and neither the
    items nor any state cell changes, even while items are still
    subscribed. *)
Theorem unmounted_Toolbar_is_silent (e : editable) f evs (w : world) :
  onSelectionChange e = HostHandler f →
  run evs (initial e) = Some w →
  is_live w = false →
  notify w = Returned (set_core (f (core (editor w))) w)
  ∧ calls (state_of (notify w)) = calls w
  ∧ items (state_of (notify w)) = items w
  ∧ buttonStates (state_of (notify w)) = buttonStates w
  ∧ dropdownStates (state_of (notify w)) = dropdownStates w.
Proof.
  intros He Hrun Hlive.
  destruct (Inv_run e evs _ _ (Inv_initial e) Hrun) as [_ [_ Hh]].
  unfold is_live in Hlive.
  assert (onSelectionChange (editor w) = HostHandler f) as Hw.
  { destruct (toolbar w); [|done|]; by rewrite Hh. }
  unfold notify. rewrite Hw. by repeat split.
Qed.

(** X14: the items the Toolbar renders change at its mount and at a
    selection-change notification, and at nothing else: not at an update of
    its [items] prop, not at its unmount, not at the mount, update, unmount
    or toggle of an item, not at a command of the host. *)
Theorem items_change_only_on_notification (ev : event) (w w' : world) :
  exec ev w = Some w' →
  ev ≠ SelectionChange →
  (∀ itemsProp, ev ≠ MountToolbar itemsProp) →
  items w' = items w.
Proof.
  intros E Hn Hm. destruct ev; simpl in E.
  - by destruct (Hm itemsProp).
  - destruct (is_live w); [|done]. injection E as <-.
    unfold Toolbar_update.
    by rewrite Toolbar_effect_items, (proj1 (Toolbar_cleanup_items w)).
  - destruct (is_live w); [|done]. injection E as <-.
    unfold Toolbar_unmount. simpl.
    by rewrite (proj1 (Toolbar_cleanup_items w)).
  - destruct (is_live w); [|done]. by injection E as <-.
  - destruct (subscribed (buttonEffects w) cell); [|done].
    injection E as <-. unfold ToolbarButton_update, ToolbarButton_effect.
    simpl. by rewrite ToolbarButton_cleanup_items.
  - destruct (subscribed (buttonEffects w) cell); [|done].
    injection E as <-. by rewrite ToolbarButton_cleanup_items.
  - injection E as <-. unfold ToolbarButton_handleToogle.
    by destruct (btn_onToggle b).
  - destruct (is_live w); [|done]. by injection E as <-.
  - destruct (subscribed (dropdownEffects w) cell); [|done].
    injection E as <-.
    unfold ToolbarDropdown_update, ToolbarDropdown_effect.
    simpl. by rewrite ToolbarDropdown_cleanup_items.
  - destruct (subscribed (dropdownEffects w) cell); [|done].
    injection E as <-. by rewrite ToolbarDropdown_cleanup_items.
  - injection E as <-. unfold ToolbarDropdown_handleToogle.
    by destruct (dd_onToggle d).
  - done.
  - by injection E as <-.
Qed.
End Silent.

(** X13 on the run that ends with the unmount: the button is still
    subscribed when the Toolbar goes. *)
Lemma unmounted_Toolbar_is_silent_sample :
  run (take 6 unmount_events) (initial sample_editor)
  = Some (Toolbar_unmount
            (default (initial sample_editor)
               (run (take 5 unmount_events) (initial sample_editor))))
  ∧ calls (state_of (notify (Toolbar_unmount
             (default (initial sample_editor)
                (run (take 5 unmount_events) (initial sample_editor))))))
    = [(0, 1); (0, 1)].
Proof.
  assert (run (take 6 unmount_events) (initial sample_editor)
          = Some (Toolbar_unmount
                    (default (initial sample_editor)
                       (run (take 5 unmount_events) (initial sample_editor)))))
    as H by (vm_compute; reflexivity).
  split; [exact H|].
  destruct (unmounted_Toolbar_is_silent sample_editor S (take 6 unmount_events)
              _ eq_refl H eq_refl) as (_ & Hc & _).
  rewrite Hc. vm_compute. reflexivity.
Defined.

(** X14 on the sample Toolbar: an update to another [items] prop. *)
Lemma items_change_only_on_notification_sample :
  exec (UpdateToolbar (Some [separator])) sample_world
  = Some (Toolbar_update (Some [separator]) sample_world)
  ∧ items (Toolbar_update (Some [separator]) sample_world)
    = items sample_world.
Proof.
  assert (exec (UpdateToolbar (Some [separator])) sample_world
          = Some (Toolbar_update (Some [separator]) sample_world)) as H
    by (vm_compute; reflexivity).
  split; [exact H|].
  apply (items_change_only_on_notification _ _ _ H); [done|done].
Defined.

(** C1 as amended on the sample Toolbar: a call of the hook installed by the
    mount, in the state where four items are subscribed. *)
Lemma Toolbar_mount_wraps_onSelectionChange_sample :
  onSelectionChange (editor (initial sample_editor)) = HostHandler S
  ∧ onSelectionChange
      (editor (Toolbar_mount (Some sample_items) (initial sample_editor)))
    = ToolbarHandler (HostHandler S) (Some sample_items)
  ∧ core (editor (state_of
        (call_onSelectionChange ThisEditor
           (onSelectionChange
              (editor (Toolbar_mount (Some sample_items)
                         (initial sample_editor))))
           sample_world))) = 2
  ∧ calls (state_of
        (call_onSelectionChange ThisEditor
           (onSelectionChange
              (editor (Toolbar_mount (Some sample_items)
                         (initial sample_editor))))
           sample_world))
    = [(0, 2); (1, 2); (2, 2); (3, 2)].
Proof.
  destruct (Toolbar_mount_wraps_onSelectionChange (Some sample_items)
              (initial sample_editor) S eq_refl) as [H1 H2].
  destruct (H2 sample_world) as (_ & _ & H3 & H4 & _).
  split; [reflexivity|]. split; [exact H1|]. split.
  - rewrite H3. vm_compute. reflexivity.
  - rewrite H4. vm_compute. reflexivity.
Defined.

(** ** The state of an item follows its current descriptor *)

Section Descriptors.
Context {Core UIButton UIDropdown : Type}.
Local Abbreviation world := (World Core UIButton UIDropdown).
Local Abbreviation editable := (Editable Core UIButton UIDropdown).
Local Abbreviation event := (Event Core UIButton UIDropdown).

Lemma ToolbarButton_cleanup_effect_ne (w : world) c cell :
  c ≠ cell →
  buttonEffects (ToolbarButton_cleanup c w) !! cell = buttonEffects w !! cell.
Proof.
  intros Hne. unfold ToolbarButton_cleanup.
  destruct (buttonEffects w !! c) as [[cb|]|]; simpl; [|done..].
  by rewrite list_lookup_insert_ne.
Qed.

Lemma ToolbarDropdown_cleanup_effect_ne (w : world) c cell :
  c ≠ cell →
  dropdownEffects (ToolbarDropdown_cleanup c w) !! cell
  = dropdownEffects w !! cell.
Proof.
  intros Hne. unfold ToolbarDropdown_cleanup.
  destruct (dropdownEffects w !! c) as [[cb|]|]; simpl; [|done..].
  by rewrite list_lookup_insert_ne.
Qed.

Lemma ToolbarDropdown_cleanup_buttonEffects (w : world) c :
  buttonEffects (ToolbarDropdown_cleanup c w) = buttonEffects w.
Proof.
  unfold ToolbarDropdown_cleanup.
  by destruct (dropdownEffects w !! c) as [[cb|]|].
Qed.

Lemma ToolbarButton_cleanup_dropdownEffects (w : world) c :
  dropdownEffects (ToolbarButton_cleanup c w) = dropdownEffects w.
Proof.
  unfold ToolbarButton_cleanup.
  by destruct (buttonEffects w !! c) as [[cb|]|].
Qed.

(** What leaves the button instance [cell] alone keeps its subscription. *)
Lemma exec_keeps_button_effect e (ev : event) (w w' : world) cell cb :
  Inv e w → rerenders_button cell ev = false → exec ev w = Some w' →
  buttonEffects w !! cell = Some (Some cb) →
  buttonEffects w' !! cell = Some (Some cb).
Proof.
  intros [(_&_&_&Hlen&_) _] Hre Hex Hcell.
  destruct ev; simpl in Hex, Hre.
  - destruct (toolbar w); [|done..]. injection Hex as <-.
    unfold Toolbar_mount.
    destruct (Toolbar_effect_wiring itemsProp
                (set_eventListeners [] (setItems [] w)))
      as (_&_&E3&_). by rewrite E3.
  - destruct (is_live w); [|done]. injection Hex as <-.
    unfold Toolbar_update.
    destruct (Toolbar_effect_wiring itemsProp (Toolbar_cleanup w))
      as (_&_&E3&_).
    destruct (Toolbar_cleanup_registry w) as (_&_&C3&_).
    by rewrite E3, C3.
  - destruct (is_live w); [|done]. injection Hex as <-.
    unfold Toolbar_unmount. simpl.
    destruct (Toolbar_cleanup_registry w) as (_&_&C3&_). by rewrite C3.
  - destruct (is_live w); [|done]. injection Hex as <-.
    unfold ToolbarButton_mount, ToolbarButton_effect, addEventListener.
    simpl. apply lookup_lt_Some in Hcell as Hlt.
    rewrite list_lookup_insert_ne by lia.
    by rewrite lookup_app_l.
  - apply bool_decide_eq_false in Hre.
    destruct (subscribed (buttonEffects w) cell0); [|done].
    injection Hex as <-.
    unfold ToolbarButton_update, ToolbarButton_effect, addEventListener.
    simpl. rewrite list_lookup_insert_ne by done.
    by rewrite ToolbarButton_cleanup_effect_ne.
  - apply bool_decide_eq_false in Hre.
    destruct (subscribed (buttonEffects w) cell0); [|done].
    injection Hex as <-. by rewrite ToolbarButton_cleanup_effect_ne.
  - injection Hex as <-. unfold ToolbarButton_handleToogle.
    by destruct (btn_onToggle b).
  - destruct (is_live w); [|done]. by injection Hex as <-.
  - destruct (subscribed (dropdownEffects w) cell0); [|done].
    injection Hex as <-.
    unfold ToolbarDropdown_update, ToolbarDropdown_effect, addEventListener.
    simpl. by rewrite ToolbarDropdown_cleanup_buttonEffects.
  - destruct (subscribed (dropdownEffects w) cell0); [|done].
    injection Hex as <-. by rewrite ToolbarDropdown_cleanup_buttonEffects.
  - injection Hex as <-. unfold ToolbarDropdown_handleToogle.
    by destruct (dd_onToggle d).
  - injection Hex as <-.
    destruct (call_onSelectionChange_wiring ThisEditor
                (onSelectionChange (editor w)) w) as (_&_&_&_&_&Hb&_).
    unfold notify. by rewrite Hb.
  - by injection Hex as <-.
Qed.

Lemma exec_keeps_dropdown_effect e (ev : event) (w w' : world) cell cb :
  Inv e w → rerenders_dropdown cell ev = false → exec ev w = Some w' →
  dropdownEffects w !! cell = Some (Some cb) →
  dropdownEffects w' !! cell = Some (Some cb).
Proof.
  intros [(_&_&_&_&Hlen) _] Hre Hex Hcell.
  destruct ev; simpl in Hex, Hre.
  - destruct (toolbar w); [|done..]. injection Hex as <-.
    unfold Toolbar_mount.
    destruct (Toolbar_effect_wiring itemsProp
                (set_eventListeners [] (setItems [] w)))
      as (_&_&_&E4&_). by rewrite E4.
  - destruct (is_live w); [|done]. injection Hex as <-.
    unfold Toolbar_update.
    destruct (Toolbar_effect_wiring itemsProp (Toolbar_cleanup w))
      as (_&_&_&E4&_).
    destruct (Toolbar_cleanup_registry w) as (_&_&_&C4&_).
    by rewrite E4, C4.
  - destruct (is_live w); [|done]. injection Hex as <-.
    unfold Toolbar_unmount. simpl.
    destruct (Toolbar_cleanup_registry w) as (_&_&_&C4&_). by rewrite C4.
  - destruct (is_live w); [|done]. by injection Hex as <-.
  - destruct (subscribed (buttonEffects w) cell0); [|done].
    injection Hex as <-.
    unfold ToolbarButton_update, ToolbarButton_effect, addEventListener.
    simpl. by rewrite ToolbarButton_cleanup_dropdownEffects.
  - destruct (subscribed (buttonEffects w) cell0); [|done].
    injection Hex as <-. by rewrite ToolbarButton_cleanup_dropdownEffects.
  - injection Hex as <-. unfold ToolbarButton_handleToogle.
    by destruct (btn_onToggle b).
  - destruct (is_live w); [|done]. injection Hex as <-.
    unfold ToolbarDropdown_mount, ToolbarDropdown_effect, addEventListener.
    simpl. apply lookup_lt_Some in Hcell as Hlt.
    rewrite list_lookup_insert_ne by lia.
    by rewrite lookup_app_l.
  - apply bool_decide_eq_false in Hre.
    destruct (subscribed (dropdownEffects w) cell0); [|done].
    injection Hex as <-.
    unfold ToolbarDropdown_update, ToolbarDropdown_effect, addEventListener.
    simpl. rewrite list_lookup_insert_ne by done.
    by rewrite ToolbarDropdown_cleanup_effect_ne.
  - apply bool_decide_eq_false in Hre.
    destruct (subscribed (dropdownEffects w) cell0); [|done].
    injection Hex as <-. by rewrite ToolbarDropdown_cleanup_effect_ne.
  - injection Hex as <-. unfold ToolbarDropdown_handleToogle.
    by destruct (dd_onToggle d).
  - injection Hex as <-.
    destruct (call_onSelectionChange_wiring ThisEditor
                (onSelectionChange (editor w)) w) as (_&_&_&_&_&_&Hd&_).
    unfold notify. by rewrite Hd.
  - by injection Hex as <-.
Qed.
Lemma run_keeps_button_effect e (evs : list event) (w w' : world) cell cb :
  Inv e w → Forall (λ ev, rerenders_button cell ev = false) evs →
  run evs w = Some w' →
  buttonEffects w !! cell = Some (Some cb) →
  buttonEffects w' !! cell = Some (Some cb).
Proof.
  intros Hi Hevs. revert w Hi.
  induction Hevs as [|ev evs Hev _ IH]; intros w Hi Hrun Hcell;
    simpl in Hrun.
  - by injection Hrun as <-.
  - destruct (exec ev w) as [w1|] eqn:E; [|done].
    apply (IH w1); [by eapply Inv_exec|done|].
    by eapply exec_keeps_button_effect.
Qed.

Lemma run_keeps_dropdown_effect e (evs : list event) (w w' : world) cell cb :
  Inv e w → Forall (λ ev, rerenders_dropdown cell ev = false) evs →
  run evs w = Some w' →
  dropdownEffects w !! cell = Some (Some cb) →
  dropdownEffects w' !! cell = Some (Some cb).
Proof.
  intros Hi Hevs. revert w Hi.
  induction Hevs as [|ev evs Hev _ IH]; intros w Hi Hrun Hcell;
    simpl in Hrun.
  - by injection Hrun as <-.
  - destruct (exec ev w) as [w1|] eqn:E; [|done].
    apply (IH w1); [by eapply Inv_exec|done|].
    by eapply exec_keeps_dropdown_effect.
Qed.

(** The effect that a render runs subscribes a listener made of the
    callbacks of the descriptor rendered. *)
Lemma renders_button_effect e b cell (w w' : world) :
  Inv e w → renders_button b cell w w' →
  (∃ ev : event, exec ev w = Some w')
  ∧ ∃ cb, buttonEffects w' !! cell = Some (Some cb)
          ∧ code cb
            = ButtonOnChange cell (btn_onActive b) (btn_onDisabled b).
Proof.
  intros [Hr _] [[Hex ->]|Hex].
  - split; [by eexists|]. simpl in Hex.
    destruct (is_live w); [|done]. injection Hex as <-.
    destruct Hr as (_&_&_&Hlen&_).
    unfold ToolbarButton_mount, ToolbarButton_effect, addEventListener.
    simpl. eexists.
    split; [apply list_lookup_insert_eq; rewrite length_app, Hlen; simpl; lia|].
    done.
  - split; [by eexists|]. simpl in Hex.
    destruct (subscribed (buttonEffects w) cell) eqn:Es; [|done].
    injection Hex as <-.
    destruct (ToolbarButton_cleanup_registered w cell Hr) as (_ & _ & Hlen).
    unfold ToolbarButton_update, ToolbarButton_effect, addEventListener.
    simpl. eexists. split.
    { apply list_lookup_insert_eq. rewrite Hlen. unfold subscribed in Es.
      destruct (buttonEffects w !! cell) eqn:E; [|done].
      by eapply lookup_lt_Some. }
    reflexivity.
Qed.

Lemma renders_dropdown_effect e d cell (w w' : world) :
  Inv e w → renders_dropdown d cell w w' →
  (∃ ev : event, exec ev w = Some w')
  ∧ ∃ cb, dropdownEffects w' !! cell = Some (Some cb)
          ∧ code cb
            = DropdownOnChange cell (dd_onActive d) (dd_onDisabled d).
Proof.
  intros [Hr _] [[Hex ->]|Hex].
  - split; [by eexists|]. simpl in Hex.
    destruct (is_live w); [|done]. injection Hex as <-.
    destruct Hr as (_&_&_&_&Hlen).
    unfold ToolbarDropdown_mount, ToolbarDropdown_effect, addEventListener.
    simpl. eexists.
    split; [apply list_lookup_insert_eq; rewrite length_app, Hlen; simpl; lia|].
    done.
  - split; [by eexists|]. simpl in Hex.
    destruct (subscribed (dropdownEffects w) cell) eqn:Es; [|done].
    injection Hex as <-.
    destruct (ToolbarDropdown_cleanup_registered w cell Hr) as (_ & _ & Hlen).
    unfold ToolbarDropdown_update, ToolbarDropdown_effect, addEventListener.
    simpl. eexists. split.
    { apply list_lookup_insert_eq. rewrite Hlen. unfold subscribed in Es.
      destruct (dropdownEffects w !! cell) eqn:E; [|done].
      by eapply lookup_lt_Some. }
    reflexivity.
Qed.

(** After a notification the cells of a button hold what the callbacks of
    the descriptor it was last rendered with return on the editor. *)
Lemma notify_rendered_button (e : editable) evs0 evs (w0 w1 w w' : world)
    b cell :
  run evs0 (initial e) = Some w0 →
  renders_button b cell w0 w1 →
  Forall (λ ev, rerenders_button cell ev = false) evs →
  run evs w1 = Some w →
  is_live w = true → notify w = Returned w' →
  buttonStates w' !! cell
  = Some {| active := match btn_onActive b with
                      | Some f => f (core (editor w'))
                      | None => false
                      end;
            disabled := match btn_onDisabled b with
                        | Some f => f (core (editor w'))
                        | None => false
                        end |}.
Proof.
  intros Hrun0 Hren Hevs Hrun Hlive Hn.
  pose proof (Inv_run e evs0 _ _ (Inv_initial e) Hrun0) as Hi0.
  pose proof (kept_run e evs0 _ _ (Inv_initial e) (kept_initial e) Hrun0)
    as Hk0.
  destruct (renders_button_effect e b cell w0 w1 Hi0 Hren)
    as [[ev Hex] (cb & Hcell & Hcode)].
  pose proof (Inv_exec e ev _ _ Hi0 Hex) as Hi1.
  pose proof (kept_exec e ev _ _ Hi0 Hk0 Hex) as Hk1.
  pose proof (Inv_run e evs _ _ Hi1 Hrun) as Hi.
  destruct (kept_run e evs _ _ Hi1 Hk1 Hrun) as (K1 & _).
  pose proof (run_keeps_button_effect e evs _ _ cell cb Hi1 Hevs Hrun Hcell)
    as Hcell'.
  destruct (K1 cell cb Hcell') as [Hin _].
  by eapply notify_button.
Qed.

Lemma notify_rendered_dropdown (e : editable) evs0 evs (w0 w1 w w' : world)
    d cell :
  run evs0 (initial e) = Some w0 →
  renders_dropdown d cell w0 w1 →
  Forall (λ ev, rerenders_dropdown cell ev = false) evs →
  run evs w1 = Some w →
  is_live w = true → notify w = Returned w' →
  dropdownStates w' !! cell
  = Some {| value := match dd_onActive d with
                     | Some f => Some (f (core (editor w')))
                     | None => None
                     end;
            dd_disabled := match dd_onDisabled d with
                           | Some f => f (core (editor w'))
                           | None => false
                           end |}.
Proof.
  intros Hrun0 Hren Hevs Hrun Hlive Hn.
  pose proof (Inv_run e evs0 _ _ (Inv_initial e) Hrun0) as Hi0.
  pose proof (kept_run e evs0 _ _ (Inv_initial e) (kept_initial e) Hrun0)
    as Hk0.
  destruct (renders_dropdown_effect e d cell w0 w1 Hi0 Hren)
    as [[ev Hex] (cb & Hcell & Hcode)].
  pose proof (Inv_exec e ev _ _ Hi0 Hex) as Hi1.
  pose proof (kept_exec e ev _ _ Hi0 Hk0 Hex) as Hk1.
  pose proof (Inv_run e evs _ _ Hi1 Hrun) as Hi.
  destruct (kept_run e evs _ _ Hi1 Hk1 Hrun) as (_ & K2 & _).
  pose proof (run_keeps_dropdown_effect e evs _ _ cell cb Hi1 Hevs Hrun Hcell)
    as Hcell'.
  destruct (K2 cell cb Hcell') as [Hin _].
  by eapply notify_dropdown.
Qed.


(** C4: in the same setting, after the notification a button rendered
    without [onActive] has [active = false] and one rendered without
    [onDisabled] has [disabled = false]; a dropdown rendered without
    [onActive] has no [value] and one rendered without [onDisabled] has
    [disabled = false], whatever the callbacks of its earlier renders; and
    the toggle of an item rendered without [onToggle] changes nothing. *)
Theorem absent_callbacks_default (e : editable) evs0 evs (w0 w1 w : world) :
  run evs0 (initial e) = Some w0 →
  run evs w1 = Some w →
  is_live w = true →
  is_Some (onToolbar (editor w)) →
  ∃ w', notify w = Returned w'
    ∧ (∀ b cell,
         renders_button b cell w0 w1 →
         Forall (λ ev, rerenders_button cell ev = false) evs →
         (btn_onActive b = None →
          active <$> buttonStates w' !! cell = Some false)
         ∧ (btn_onDisabled b = None →
            disabled <$> buttonStates w' !! cell = Some false))
    ∧ (∀ d cell,
         renders_dropdown d cell w0 w1 →
         Forall (λ ev, rerenders_dropdown cell ev = false) evs →
         (dd_onActive d = None →
          value <$> dropdownStates w' !! cell = Some None)
         ∧ (dd_onDisabled d = None →
            dd_disabled <$> dropdownStates w' !! cell = Some false))
    ∧ (∀ b (v : world),
         btn_onToggle b = None → exec (ToggleButton b) v = Some v)
    ∧ (∀ d s (v : world),
         dd_onToggle d = None → exec (ToggleDropdown d s) v = Some v).
Proof.
  intros Hrun0 Hrun Hlive Hon.
  destruct (call_onSelectionChange_total ThisEditor
              (onSelectionChange (editor w)) w Hon) as [w' Hn].
  exists w'. split; [done|]. split; [|split; [|split]].
  - intros b cell Hren Hevs.
    rewrite (notify_rendered_button e evs0 evs w0 w1 w w' b cell) by done.
    split; intros ->; done.
  - intros d cell Hren Hevs.
    rewrite (notify_rendered_dropdown e evs0 evs w0 w1 w w' d cell) by done.
    split; intros ->; done.
  - intros b v Hb. simpl. by rewrite Hb.
  - intros d s v Hd. simpl. by rewrite Hd.
Qed.
End Descriptors.


(** C4 on two mounted buttons: the first, mounted with [bold], is rendered
    again with [plain], which has no callback. *)
Lemma absent_callbacks_default_sample :
  run [MountToolbar None; MountButton bold; MountButton plain]
    (initial sample_editor) = Some two_buttons
  ∧ run [] bold_made_plain = Some bold_made_plain
  ∧ is_live bold_made_plain = true
  ∧ is_Some (onToolbar (editor bold_made_plain))
  ∧ renders_button plain 0 two_buttons bold_made_plain
  ∧ (∃ w', notify bold_made_plain = Returned w'
       ∧ active <$> buttonStates w' !! 0 = Some false
       ∧ disabled <$> buttonStates w' !! 0 = Some false)
  ∧ run heading_events (initial sample_editor) = Some heading_mounted
  ∧ value <$> dropdownStates heading_mounted !! 0 = Some (Some "h2"%string)
  ∧ renders_dropdown font 0 heading_mounted heading_made_font
  ∧ ∃ w', notify heading_made_font = Returned w'
      ∧ value <$> dropdownStates w' !! 0 = Some None.
Proof.
  assert (run [MountToolbar None; MountButton bold; MountButton plain]
            (initial sample_editor) = Some two_buttons) as H0
    by (vm_compute; reflexivity).
  assert (run [] bold_made_plain = Some bold_made_plain) as H1
    by reflexivity.
  assert (is_live bold_made_plain = true) as H2 by (vm_compute; reflexivity).
  assert (is_Some (onToolbar (editor bold_made_plain))) as H3
    by (by eexists).
  assert (renders_button plain 0 two_buttons bold_made_plain) as H4
    by (right; vm_compute; reflexivity).
  repeat (split; [assumption|]).
  destruct (absent_callbacks_default sample_editor
              [MountToolbar None; MountButton bold; MountButton plain] []
              two_buttons bold_made_plain bold_made_plain H0 H1 H2 H3)
    as (w' & Hn & Hb & _).
  split.
  { exists w'. split; [exact Hn|].
    destruct (Hb plain 0 H4 (Forall_nil_2 _)) as [Ha Hd].
    split; [exact (Ha eq_refl)|exact (Hd eq_refl)]. }
  assert (run heading_events (initial sample_editor) = Some heading_mounted)
    as G0 by (vm_compute; reflexivity).
  assert (value <$> dropdownStates heading_mounted !! 0
          = Some (Some "h2"%string)) as G1 by (vm_compute; reflexivity).
  assert (renders_dropdown font 0 heading_mounted heading_made_font) as G2
    by (right; vm_compute; reflexivity).
  repeat (split; [assumption|]).
  destruct (absent_callbacks_default sample_editor heading_events []
              heading_mounted heading_made_font heading_made_font G0
              eq_refl eq_refl (ex_intro _ _ eq_refl))
    as (v' & Gn & _ & Gd & _).
  exists v'. split; [exact Gn|].
  exact (proj1 (Gd font 0 G2 (Forall_nil_2 _)) eq_refl).
Defined.
